(** * slack-libpurple: thread references (slack-thread.c)

    A shallow embedding of [slack-thread.c]: the classifier of canonical
    thread timestamps, the resolver of local time strings, the dispatcher
    of the history query and the callback that interprets its answer.

    C strings are Rocq strings: the end of the string stands for the
    terminating NUL.  Pointers to conversation objects are addresses into
    a store; a NULL pointer is [None]. *)

From Stdlib Require Import ZArith Ascii String Bool Lia.
From stdpp Require Import gmap strings list pretty.

Local Open Scope Z_scope.

(** ** Characters and strings *)

(** [c >= '0' && c <= '9'] *)
Definition is_digit (c : ascii) : bool :=
  (48 <=? Z.of_nat (nat_of_ascii c)) && (Z.of_nat (nat_of_ascii c) <=? 57).

(** [c == '.'] *)
Definition is_dot (c : ascii) : bool := Ascii.eqb c "."%char.

Fixpoint has_digit (s : string) : bool :=
  match s with
  | EmptyString => false
  | String c r => is_digit c || has_digit r
  end.

Fixpoint has_dot (s : string) : bool :=
  match s with
  | EmptyString => false
  | String c r => is_dot c || has_dot r
  end.

Fixpoint all_digits (s : string) : bool :=
  match s with
  | EmptyString => true
  | String c r => is_digit c && all_digits r
  end.

(** Only digits and decimal points occur in [s]. *)
Fixpoint digits_and_dots (s : string) : bool :=
  match s with
  | EmptyString => true
  | String c r => (is_digit c || is_dot c) && digits_and_dots r
  end.

(** ** Timestamp classifier *)

Module Classifier.

(** The [for] loop of [slack_is_slack_ts], from position [i] on, with the
    three flags as they stand there.  The early [return FALSE] on a second
    decimal point ends the scan. *)
Fixpoint scan (str : string) (found_prefix found_dot found_suffix : bool) : bool :=
  match str with
  | EmptyString => found_prefix && found_dot && found_suffix
  | String c rest =>
      if is_digit c then
        if found_dot then scan rest found_prefix found_dot true
        else scan rest true found_dot found_suffix
      else if is_dot c then
        if found_dot then false
        else scan rest found_prefix true found_suffix
      else scan rest found_prefix found_dot found_suffix
  end.

Definition slack_is_slack_ts (str : string) : bool :=
  scan str false false false.

(** The grammar of the canonical thread timestamp, in the words of the
    specification: one decimal point, at least one digit before it, at
    least one digit after it, and nothing else but digits. *)
Definition canonical_ts (s : string) : Prop :=
  ∃ p q : string,
    s = p +:+ "." +:+ q ∧
    p ≠ "" ∧ q ≠ "" ∧ all_digits p = true ∧ all_digits q = true.

(** What the loop accepts: one decimal point, a digit somewhere before it
    and a digit somewhere after it. *)
Definition lenient_ts (s : string) : Prop :=
  ∃ p q : string,
    s = p +:+ "." +:+ q ∧
    has_dot p = false ∧ has_dot q = false ∧
    has_digit p = true ∧ has_digit q = true.

End Classifier.


(** ** Text constants *)

(** The double quote and the newline, by their codes. *)
Definition dquote : string := String "034"%char EmptyString.
Definition nl : string := String "010"%char EmptyString.

(** [printf]'s [%ld]: the decimal digits, with a minus sign below zero. *)
Definition fmt_ld (x : Z) : string := pretty x.

(** ** JSON values (json.h, slack-json.h) *)

Module Json.

(** The tagged union [json_value]; [json_double] carries no payload here,
    no accessor of this file reads one. *)
#[local] Unset Elimination Schemes.
Inductive json_value : Type :=
  | json_none
  | json_object (values : list (string * json_value))
  | json_array (values : list json_value)
  | json_integer (i : Z)
  | json_double
  | json_string (ptr : string)
  | json_boolean (b : bool)
  | json_null.
#[local] Set Elimination Schemes.

(** Modelled from the spec: the JSON accessors of slack-json.h are not
    among the sources; [get_array_field] and [get_string_field] return
    "absent" as a normal outcome.  [json_get_prop] finds the first member
    of that name in an object, and nothing in any other value or in NULL. *)
Fixpoint find_prop (values : list (string * json_value)) (index : string)
  : option json_value :=
  match values with
  | [] => None
  | (name, v) :: rest => if String.eqb name index then Some v else find_prop rest index
  end.

Definition json_get_prop (val : option json_value) (index : string)
  : option json_value :=
  match val with
  | Some (json_object values) => find_prop values index
  | _ => None
  end.

(** Modelled from the spec: [json_get_prop_type(json, prop, array)], the
    member when it is an array, NULL otherwise. *)
Definition json_get_prop_array (val : option json_value) (index : string)
  : option (list json_value) :=
  match json_get_prop val index with
  | Some (json_array values) => Some values
  | _ => None
  end.

(** Modelled from the spec: [json_get_prop_strptr], the member's text when
    it is a string, NULL otherwise. *)
Definition json_get_prop_strptr (val : option json_value) (index : string)
  : option string :=
  match json_get_prop val index with
  | Some (json_string ptr) => Some ptr
  | _ => None
  end.

End Json.

(** ** Conversations, thread operations and the world *)

Module World.

(** A pointer to a [SlackObject]. *)
Definition addr := nat.

(** What [SLACK_IS_CHANNEL] and [SLACK_IS_USER] tell apart. *)
Inductive object_type := SlackChannelType | SlackUserType | SlackOtherType.

(** Modelled from the spec: slack-object.h and slack-conversation.h are
    not among the sources.  The fields of a conversation object that
    slack-thread.c touches: its type, its [object.name], the chat id [cid]
    of a channel, the stable identifier that [slack_conversation_id]
    returns for it, and the optional thread context [thread_ts]. *)
Record SlackObject := {
  otype : object_type;
  name : string;
  cid : Z;
  conversation_id : string;
  thread_ts : option string
}.

Definition with_thread_ts (o : SlackObject) (ts : option string) : SlackObject :=
  {| otype := otype o; name := name o; cid := cid o;
     conversation_id := conversation_id o; thread_ts := ts |}.

(** [enum ThreadOp] and [struct thread_op]. *)
Inductive ThreadOp := ThreadOpPost | ThreadOpGetReplies.

Record thread_op := {
  conv : addr;
  op : ThreadOp;
  msg : option string
}.

(** The one callback this file registers. *)
Inductive callback := slack_thread_cb_ptr.

(** The calls that leave this file, in the order they are made: the
    collaborators of the plugin, the debug log, and GLib's reference
    counting and [g_free] on a thread operation.  A send records the
    thread context that the conversation carries while the call runs.
    Strings local to one function ([GString] buffers, the copy of the
    timestamp) are values and leave no event. *)
Inductive event : Type :=
  | EvWriteMessage (conv : addr) (text : string) (flags : Z)
  | EvChatSend (cid : Z) (msg : string) (flags : Z) (thread_ts : option string)
  | EvSendIm (who : string) (msg : string) (flags : Z) (thread_ts : option string)
  | EvGetThreadReplies (conv : addr) (ts : string)
  | EvApiGet (cb : callback) (data : option thread_op) (endpoint : string)
             (query : list (string * string))
  | EvDebugError (category format : string) (args : list string)
  | EvDebugMisc (category format : string)
  | EvObjectRef (conv : addr)
  | EvObjectUnref (conv : addr)
  | EvFreeMsg (msg : option string)
  | EvFreeOp (o : thread_op).

(** The store of conversation objects, the clock that [time(NULL)] reads
    and the calls made so far. *)
Record world := {
  objs : gmap addr SlackObject;
  clock : Z;
  trace : list event
}.

Definition emit (e : event) (w : world) : world :=
  {| objs := objs w; clock := clock w; trace := trace w ++ [e] |}.

Definition with_objs (w : world) (m : gmap addr SlackObject) : world :=
  {| objs := m; clock := clock w; trace := trace w |}.

(** A run either returns or goes through a NULL or dangling pointer,
    which C leaves undefined. *)
Inductive result (A : Type) : Type :=
  | Done (a : A)
  | Fault.
Arguments Done {A} a.
Arguments Fault {A}.

Definition bind {A B} (r : result A) (k : A → result B) : result B :=
  match r with
  | Done a => k a
  | Fault => Fault
  end.

(** [*conv] *)
Definition deref (w : world) (conv : addr) : result SlackObject :=
  match objs w !! conv with
  | Some o => Done o
  | None => Fault
  end.

(** [conv->thread_ts = ts] *)
Definition store_thread_ts (w : world) (conv : addr) (ts : option string)
  : result world :=
  bind (deref w conv) (λ o,
    Done (with_objs w (<[conv := with_thread_ts o ts]> (objs w)))).

Definition is_release (e : event) : bool :=
  match e with
  | EvObjectUnref _ | EvFreeMsg _ | EvFreeOp _ => true
  | _ => false
  end.

Definition is_send (e : event) : bool :=
  match e with
  | EvChatSend _ _ _ _ | EvSendIm _ _ _ _ => true
  | _ => false
  end.

Definition is_write (e : event) : bool :=
  match e with
  | EvWriteMessage _ _ _ => true
  | _ => false
  end.

End World.

Notation "'let*' x ':=' r 'in' k" := (World.bind r (λ x, k))
  (at level 10, x name, r at level 100, k at level 200, only parsing).

(** ** The C library: broken-down time *)

Module Libc.

Record tm := {
  tm_sec : Z; tm_min : Z; tm_hour : Z;
  tm_mday : Z; tm_mon : Z; tm_year : Z;
  tm_wday : Z; tm_yday : Z; tm_isdst : Z
}.

(** The functions of <time.h> that the resolver calls, for one locale and
    one time zone.  [strptime s fmt tm] returns how many characters of [s]
    it went past ([None] for NULL) and the structure as it leaves it,
    written or not. *)
Class Time := {
  localtime_r : Z → tm;
  strptime : string → string → tm → option nat * tm;
  mktime : tm → Z
}.

Definition ENOENT : Z := 2.
Definition strerror_ENOENT : string := "No such file or directory".

End Libc.

(** ** slack-thread.c *)

Module Thread.

Import Json World Libc Classifier.

(** The flag of a system message, from libpurple's conversation.h. *)
Definition PURPLE_MESSAGE_SYSTEM : Z := 4.

Section Resolver.

Context {libc : Time}.

(** [slack_get_ts_from_time_str], with [now] for what [time(NULL)]
    returns.  The second attempt works on the structure as the first one
    left it. *)
Definition slack_get_ts_from_time_str (now : Z) (time_str : string) : Z :=
  let tm := localtime_r now in
  (* Time only. *)
  let '(result, tm) := strptime time_str "%X" tm in
  if decide (result = Some (String.length time_str)) then mktime tm
  else
    (* Date and time. *)
    let '(result, tm) := strptime time_str "%x-%X" tm in
    if decide (result = Some (String.length time_str)) then mktime tm
    else 0.

End Resolver.

(** The collaborators, by the call each one receives. *)
Definition slack_write_message (w : world) (conv : addr) (text : string)
  (flags : Z) : world :=
  emit (EvWriteMessage conv text flags) w.

Definition slack_get_thread_replies (w : world) (conv : addr) (ts : string)
  : world :=
  emit (EvGetThreadReplies conv ts) w.

Definition thread_op_new_post (w : world) (conv : addr) (msg : option string)
  : world * thread_op :=
  (emit (EvObjectRef conv) w,
   {| conv := conv; op := ThreadOpPost; msg := msg |}).

Definition thread_op_new_get_replies (w : world) (conv : addr)
  : world * thread_op :=
  (emit (EvObjectRef conv) w,
   {| conv := conv; op := ThreadOpGetReplies; msg := None |}).

Definition thread_op_free (w : world) (o : option thread_op) : world :=
  match o with
  | None => w
  | Some o =>
      let w := emit (EvObjectUnref (conv o)) w in
      let w := emit (EvFreeMsg (msg o)) w in
      emit (EvFreeOp o) w
  end.

(** The calls [thread_op_free] makes on an operation. *)
Definition release_events (o : thread_op) : list event :=
  [EvObjectUnref (conv o); EvFreeMsg (msg o); EvFreeOp o].

Definition slack_thread_send_message (w : world) (conv : addr) (msg : string)
  (flags : Z) : result (world * Z) :=
  let* o := deref w conv in
  match otype o with
  | SlackChannelType =>
      Done (emit (EvChatSend (cid o) msg flags (thread_ts o)) w, 1)
  | SlackUserType =>
      Done (emit (EvSendIm (name o) msg flags (thread_ts o)) w, 1)
  | SlackOtherType => Done (w, - ENOENT)
  end.

Definition send_failure_format : string :=
  "Not able to send message " +:+ dquote +:+ "%s" +:+ dquote +:+ ": %s" +:+ nl.

Definition slack_thread_post (w : world) (conv : addr) (ts : string)
  (msg : option string) : result world :=
  match msg with
  | None => Done w
  | Some msg =>
      (* Temporarily set thread_ts for this one message, and then restore
         it afterwards. *)
      let* o := deref w conv in
      let old_thread_ts := thread_ts o in
      let* w := store_thread_ts w conv (Some ts) in
      let* r := slack_thread_send_message w conv msg 0 in
      let '(w, status) := r in
      let w :=
        if status <? 0
        then emit (EvDebugError "slack" send_failure_format [msg; strerror_ENOENT]) w
        else w in
      store_thread_ts w conv old_thread_ts
  end.

Definition not_found_message : string :=
  "Thread not found. If the thread start date is not today, make sure you specify the date in the thread timestamp.".

Definition ambiguous_header : string :=
  "Thread timestamp is ambiguous. Please use one of the following unambiguous thread IDs:" +:+ nl.

Section Callback.

(** [slack_get_thread_color], a pure function of the timestamp that lives
    in another file. *)
Variable slack_get_thread_color : string → string.

(** The line one entry with a timestamp adds to the listing. *)
Definition candidate_line (ts : string) (text : option string) : string :=
  "<font color=" +:+ dquote +:+ "#" +:+ slack_get_thread_color ts
    +:+ dquote +:+ ">" +:+ ts +:+ "</font> (" +:+ dquote
    +:+ default "NULL" text +:+ dquote +:+ ")" +:+ nl.

(** One turn of the loop over the candidates. *)
Definition append_candidate (errmsg : string) (entry : json_value) : string :=
  match json_get_prop_strptr (Some entry) "ts" with
  | Some ts =>
      errmsg +:+ candidate_line ts (json_get_prop_strptr (Some entry) "text")
  | None => errmsg
  end.

Definition ambiguous_message (values : list json_value) : string :=
  fold_left append_candidate values ambiguous_header.

(** [slack_thread_cb] up to the label [end]. *)
Definition slack_thread_cb_body (w : world) (o : thread_op)
  (json : option json_value) (error : option string) : result world :=
  let conv := conv o in
  let list := json_get_prop_array json "messages" in
  let w :=
    if negb (bool_decide (is_Some list)) || bool_decide (is_Some error)
    then emit (EvDebugError "slack" ("Error querying threads: %s" +:+ nl)
                 [default "missing" error]) w
    else w in
  match list with
  | None => Fault
  | Some values =>
      if (length values <=? 0)%nat then
        Done (slack_write_message w conv not_found_message PURPLE_MESSAGE_SYSTEM)
      else if (1 <? length values)%nat then
        Done (slack_write_message w conv (ambiguous_message values)
                PURPLE_MESSAGE_SYSTEM)
      else
        match json_get_prop_strptr (values !! 0%nat) "ts" with
        | None =>
            Done (emit (EvDebugMisc "slack"
                          ("Missing ts value in thread callback" +:+ nl)) w)
        | Some ts =>
            match op o with
            | ThreadOpPost => slack_thread_post w conv ts (msg o)
            | ThreadOpGetReplies => Done (slack_get_thread_replies w conv ts)
            end
        end
  end.

(** [slack_thread_cb]; it returns FALSE on every path, which is left
    out. *)
Definition slack_thread_cb (w : world) (data : option thread_op)
  (json : option json_value) (error : option string) : result world :=
  match data with
  | None => Done w
  | Some o =>
      let* w := slack_thread_cb_body w o json error in
      Done (thread_op_free w (Some o))
  end.

End Callback.

Definition slack_thread_call_operation (w : world) (obj : addr)
  (o : thread_op) (ts : Z) : result world :=
  let oldest := fmt_ld ts +:+ ".000000" in
  let latest := fmt_ld ts +:+ ".999999" in
  let* c := deref w obj in
  let id := conversation_id c in
  Done (emit (EvApiGet slack_thread_cb_ptr (Some o) "conversations.history"
                [("channel", id); ("oldest", oldest); ("latest", latest)]) w).

Section Entry.

Context {libc : Time}.

Definition could_not_parse : string := "Could not parse thread timestamp.".

Definition slack_thread_post_to_timestamp (w : world) (obj : addr)
  (timestr : string) (msg : option string) : result world :=
  if slack_is_slack_ts timestr then slack_thread_post w obj timestr msg
  else
    let ts := slack_get_ts_from_time_str (clock w) timestr in
    if ts =? 0 then
      Done (slack_write_message w obj could_not_parse PURPLE_MESSAGE_SYSTEM)
    else
      let '(w, o) := thread_op_new_post w obj msg in
      slack_thread_call_operation w obj o ts.

Definition slack_thread_get_replies (w : world) (obj : addr)
  (timestr : string) : result world :=
  if slack_is_slack_ts timestr then
    Done (slack_get_thread_replies w obj timestr)
  else
    let ts := slack_get_ts_from_time_str (clock w) timestr in
    if ts =? 0 then
      Done (slack_write_message w obj could_not_parse PURPLE_MESSAGE_SYSTEM)
    else
      let '(w, o) := thread_op_new_get_replies w obj in
      slack_thread_call_operation w obj o ts.

End Entry.

End Thread.

(** ** A C library to run the resolver with: the POSIX locale, in UTC *)

Module PosixC.

Import Libc.

(** Days between 1970-01-01 and a date of the proleptic Gregorian
    calendar, and back. *)
Definition days_from_civil (y m d : Z) : Z :=
  let y := if m <=? 2 then y - 1 else y in
  let era := y / 400 in
  let yoe := y - era * 400 in
  let doy := (153 * (m + (if 2 <? m then -3 else 9)) + 2) / 5 + d - 1 in
  let doe := yoe * 365 + yoe / 4 - yoe / 100 + doy in
  era * 146097 + doe - 719468.

Definition civil_from_days (z : Z) : Z * Z * Z :=
  let z := z + 719468 in
  let era := z / 146097 in
  let doe := z - era * 146097 in
  let yoe := (doe - doe / 1460 + doe / 36524 - doe / 146096) / 365 in
  let doy := doe - (365 * yoe + yoe / 4 - yoe / 100) in
  let mp := (5 * doy + 2) / 153 in
  let d := doy - (153 * mp + 2) / 5 + 1 in
  let m := if mp <? 10 then mp + 3 else mp - 9 in
  (if m <=? 2 then yoe + era * 400 + 1 else yoe + era * 400, m, d).

Definition posix_localtime_r (t : Z) : tm :=
  let days := t / 86400 in
  let rem := t mod 86400 in
  let '(y, m, d) := civil_from_days days in
  {| tm_sec := rem mod 60; tm_min := (rem / 60) mod 60; tm_hour := rem / 3600;
     tm_mday := d; tm_mon := m - 1; tm_year := y - 1900;
     tm_wday := (days + 4) mod 7; tm_yday := days - days_from_civil y 1 1;
     tm_isdst := 0 |}.

(** [mktime] reads the date and the time of day, out of range or not, and
    neither [tm_wday] nor [tm_yday]. *)
Definition posix_mktime (t : tm) : Z :=
  let months := tm_year t * 12 + tm_mon t in
  let days := days_from_civil (1900 + months / 12) (months mod 12 + 1) 1
              + (tm_mday t - 1) in
  days * 86400 + tm_hour t * 3600 + tm_min t * 60 + tm_sec t.

(** The conversions the two formats of the resolver reach. *)
Inductive directive := Conv (c : ascii) | Lit (c : ascii).

Fixpoint parse_format (fmt : string) : list directive :=
  match fmt with
  | EmptyString => []
  | String c r =>
      match r with
      | String d r' =>
          if Ascii.eqb c "%" then Conv d :: parse_format r'
          else Lit c :: parse_format r
      | EmptyString => [Lit c]
      end
  end.

Definition is_conv (c : ascii) (d : string) : bool :=
  String.eqb (String c EmptyString) d.

(** [%X] is [%H:%M:%S] and [%x] is [%m/%d/%y] in the POSIX locale. *)
Definition expand (d : directive) : list directive :=
  match d with
  | Conv c =>
      if is_conv c "X" then parse_format "%H:%M:%S"
      else if is_conv c "x" then parse_format "%m/%d/%y"
      else [d]
  | Lit _ => [d]
  end.

Fixpoint skip_spaces (s : string) (k : nat) : string * nat :=
  match s with
  | String c r => if is_conv c " " then skip_spaces r (S k) else (s, k)
  | EmptyString => (s, k)
  end.

Definition digit_val (c : ascii) : Z := Z.of_nat (nat_of_ascii c) - 48.

(** Up to [n] digits, as long as one more could stay below [to]. *)
Fixpoint get_digits (n : nat) (to val : Z) (s : string) (k : nat)
  : Z * string * nat :=
  match n, s with
  | S n', String c r =>
      if is_digit c then
        let val := val * 10 + digit_val c in
        if (0 <? n')%nat && (val * 10 <=? to)
        then get_digits n' to val r (S k)
        else (val, r, S k)
      else (val, s, k)
  | _, _ => (val, s, k)
  end.

Definition get_number (from to : Z) (n : nat) (s : string) (k : nat)
  : option (Z * string * nat) :=
  let '(s, k) := skip_spaces s k in
  match s with
  | String c _ =>
      if is_digit c then
        let '(val, r, k') := get_digits n to 0 s k in
        if (val <? from) || (to <? val) then None else Some (val, r, k')
      else None
  | EmptyString => None
  end.

Definition set_field (c : ascii) (t : tm) (v : Z) : tm :=
  let 'Build_tm sec min hour mday mon year wday yday isdst := t in
  if is_conv c "H" then Build_tm sec min v mday mon year wday yday isdst
  else if is_conv c "M" then Build_tm sec v hour mday mon year wday yday isdst
  else if is_conv c "S" then Build_tm v min hour mday mon year wday yday isdst
  else if is_conv c "m" then Build_tm sec min hour mday (v - 1) year wday yday isdst
  else if is_conv c "d" then Build_tm sec min hour v mon year wday yday isdst
  else if is_conv c "y" then
    Build_tm sec min hour mday mon (if 69 <=? v then v else v + 100)
      wday yday isdst
  else t.

Definition field_range (c : ascii) : option (Z * Z) :=
  if is_conv c "H" then Some (0, 23)
  else if is_conv c "M" then Some (0, 59)
  else if is_conv c "S" then Some (0, 61)
  else if is_conv c "m" then Some (1, 12)
  else if is_conv c "d" then Some (1, 31)
  else if is_conv c "y" then Some (0, 99)
  else None.

Fixpoint run (ds : list directive) (s : string) (k : nat) (t : tm)
  : option nat * tm :=
  match ds with
  | [] => (Some k, t)
  | Lit c :: ds =>
      match s with
      | String c' r => if Ascii.eqb c c' then run ds r (S k) t else (None, t)
      | EmptyString => (None, t)
      end
  | Conv c :: ds =>
      match field_range c with
      | Some (from, to) =>
          match get_number from to 2 s k with
          | Some (v, r, k') => run ds r k' (set_field c t v)
          | None => (None, t)
          end
      | None => (None, t)
      end
  end.

Definition posix_strptime (s fmt : string) (t : tm) : option nat * tm :=
  run (concat (map expand (parse_format fmt))) s 0%nat t.

Definition posix_time : Time :=
  {| localtime_r := posix_localtime_r;
     strptime := posix_strptime;
     mktime := posix_mktime |}.

End PosixC.

(** ** Vocabulary of the statements *)

Module Spec.

Import Json World Libc Thread.

(** The text up to its first newline. *)
Fixpoint first_line (s : string) : string :=
  match s with
  | EmptyString => EmptyString
  | String c r =>
      if Ascii.eqb c "010" then EmptyString else String c (first_line r)
  end.

(** The line of a candidate as the specification words it: the coloured
    timestamp, then the first line of the text, or NULL. *)
Definition spec_candidate_line (color : string → string) (ts : string)
  (text : option string) : string :=
  candidate_line color ts (first_line <$> text).

Definition spec_ambiguous_message (color : string → string)
  (values : list json_value) : string :=
  fold_left
    (λ errmsg entry,
       match json_get_prop_strptr (Some entry) "ts" with
       | Some ts =>
           errmsg +:+ spec_candidate_line color ts
                        (json_get_prop_strptr (Some entry) "text")
       | None => errmsg
       end)
    values ambiguous_header.

(** The lines of a listing, one for each entry that has a timestamp. *)
Definition candidate_lines (color : string → string)
  (values : list json_value) : list string :=
  omap (λ entry,
          ts ← json_get_prop_strptr (Some entry) "ts";
          Some (candidate_line color ts
                  (json_get_prop_strptr (Some entry) "text")))
       values.

Fixpoint concat_lines (lines : list string) : string :=
  match lines with
  | [] => EmptyString
  | l :: ls => l +:+ concat_lines ls
  end.

(** The line of the debug log on an error or a missing array. *)
Definition query_log (present : bool) (error : option string) : list event :=
  if negb present || bool_decide (is_Some error)
  then [EvDebugError "slack" ("Error querying threads: %s" +:+ nl)
          [default "missing" error]]
  else [].

(** What a post does with a live conversation [c]: a send that carries
    the thread context [ts], or the debug line of a failed send. *)
Definition post_call (c : SlackObject) (ts msg : string) : event :=
  match otype c with
  | SlackChannelType => EvChatSend (cid c) msg 0 (Some ts)
  | SlackUserType => EvSendIm (name c) msg 0 (Some ts)
  | SlackOtherType =>
      EvDebugError "slack" send_failure_format [msg; strerror_ENOENT]
  end.

Definition no_release (evs : list event) : Prop :=
  Forall (λ e, is_release e = false) evs.

End Spec.

(** ** Concrete inputs *)

Module Examples.

Import Json World Libc Thread.

Definition general : SlackObject :=
  {| otype := SlackChannelType; name := "general"; cid := 7;
     conversation_id := "C024BE91L"; thread_ts := None |}.

Definition alice : SlackObject :=
  {| otype := SlackUserType; name := "alice"; cid := 0;
     conversation_id := "D024BE7RE"; thread_ts := Some "1622548000.000200" |}.

(** A world with a channel at address 1 and a user at address 2, at noon
    of 2021-06-01. *)
Definition w0 : world :=
  {| objs := {[ 1%nat := general; 2%nat := alice ]};
     clock := 1622548800;
     trace := [] |}.

Definition post_hello : thread_op :=
  {| conv := 1%nat; op := ThreadOpPost; msg := Some "hello" |}.

Definition fetch_alice : thread_op :=
  {| conv := 2%nat; op := ThreadOpGetReplies; msg := None |}.

Definition color0 (ts : string) : string := "336699".

Definition entry (ts : string) (text : option string) : json_value :=
  json_object
    (("ts", json_string ts) ::
     match text with
     | Some t => [("text", json_string t)]
     | None => []
     end).

Definition response (values : list json_value) : option json_value :=
  Some (json_object [("ok", json_boolean true); ("messages", json_array values)]).

(** Two candidates, the first with a text of two lines. *)
Definition two_lines : list json_value :=
  [entry "1.000001" (Some ("hi" +:+ nl +:+ "there")); entry "1.000002" None].

(** Three entries, the second without a timestamp. *)
Definition one_without_ts : list json_value :=
  [entry "1.000001" (Some "hi");
   json_object [("text", json_string "lost")];
   entry "1.000002" None].

End Examples.

(** ** The wording of the window and of the listing *)

Module Wording.

Import Json.

(** The number that a string of digits writes, read from the left, after
    [acc]. *)
Fixpoint digits_value (s : string) (acc : Z) : Z :=
  match s with
  | EmptyString => acc
  | String c r => digits_value r (acc * 10 + (Z.of_nat (nat_of_ascii c) - 48))
  end.

Definition leading_zero (s : string) : bool :=
  match s with
  | String c _ => Ascii.eqb c "0"
  | EmptyString => false
  end.

(** Digits, at least one, and no zero in front of another digit. *)
Definition plain_digits (s : string) : Prop :=
  all_digits s = true ∧ s ≠ "" ∧ (leading_zero s = true → s = "0").

(** [d] is the number [T] written in decimal: its digits, after a minus
    sign when [T] is below zero. *)
Definition decimal_of (d : string) (T : Z) : Prop :=
  if T <? 0
  then ∃ r, d = "-" +:+ r ∧ plain_digits r ∧ digits_value r 0 = - T
  else plain_digits d ∧ digits_value d 0 = T.

(** The header of the listing of candidates. *)
Definition listing_header : string :=
  "Thread timestamp is ambiguous. Please use one of the following unambiguous thread IDs:"
  +:+ nl.

(** The timestamp [ts] in a font tag of the colour [c]. *)
Definition font_tag (c ts : string) : string :=
  ("<font color=" +:+ dquote +:+ "#" +:+ c +:+ dquote +:+ ">")
  +:+ ts +:+ "</font>".

(** The whole text of an entry between double quotes; the word NULL
    stands for a text that is absent. *)
Definition quoted_text (text : option string) : string :=
  dquote
  +:+ match text with
      | Some t => t
      | None => "NULL"
      end
  +:+ dquote.

(** The line of a candidate: the tagged timestamp, the quoted text in
    brackets, a newline. *)
Definition listed_line (color : string → string) (ts : string)
  (text : option string) : string :=
  (font_tag (color ts) ts +:+ " (" +:+ quoted_text text +:+ ")") +:+ nl.

(** The lines of the entries that have a timestamp, in their order. *)
Fixpoint listing (color : string → string) (values : list json_value)
  : string :=
  match values with
  | [] => EmptyString
  | entry :: rest =>
      match json_get_prop_strptr (Some entry) "ts" with
      | Some ts =>
          listed_line color ts (json_get_prop_strptr (Some entry) "text")
          +:+ listing color rest
      | None => listing color rest
      end
  end.

End Wording.

(** ** Vocabulary of the further statements *)

Module Coverage.

Import Json World Libc Thread.

(** How many decimal points a string holds. *)
Fixpoint count_dots (s : string) : nat :=
  match s with
  | EmptyString => 0%nat
  | String c r => ((if is_dot c then 1 else 0) + count_dots r)%nat
  end.

Definition is_log (e : event) : bool :=
  match e with
  | EvDebugError _ _ _ | EvDebugMisc _ _ => true
  | _ => false
  end.

Definition is_fetch (e : event) : bool :=
  match e with
  | EvGetThreadReplies _ _ => true
  | _ => false
  end.

Definition is_query (e : event) : bool :=
  match e with
  | EvApiGet _ _ _ _ => true
  | _ => false
  end.

(** What the user of the plugin can see: a system message, a message
    sent, a thread fetched. *)
Definition is_action (e : event) : bool :=
  is_write e || is_send e || is_fetch e.

(** Debug lines apart, at most one call, and that one an action. *)
Definition single_action (evs : list event) : Prop :=
  Forall (λ e, is_log e || is_action e = true) evs ∧
  (length (List.filter is_action evs) ≤ 1)%nat.

(** The history query on the conversation [id] for the second [T], with
    the operation [o] for its callback. *)
Definition history_query (o : thread_op) (id : string) (T : Z) : event :=
  EvApiGet slack_thread_cb_ptr (Some o) "conversations.history"
    [("channel", id);
     ("oldest", fmt_ld T +:+ ".000000");
     ("latest", fmt_ld T +:+ ".999999")].

(** A response with one entry, as the history returns it for a second
    that holds one message. *)
Definition one_match : option json_value :=
  Examples.response [Examples.entry "1622557800.000100" (Some "root")].

End Coverage.

Import Json World Libc Thread Classifier.

(** ** Facts on characters *)

Lemma digit_not_dot c : is_digit c = true → is_dot c = false.
Proof.
  unfold is_digit, is_dot. intros H.
  destruct (Ascii.eqb_spec c "."%char) as [->|]; [|done].
  vm_compute in H. discriminate.
Qed.

Lemma all_digits_has_dot s : all_digits s = true → has_dot s = false.
Proof.
  induction s as [|c r IH]; simpl; [done|].
  intros [Hc Hr]%andb_true_iff.
  by rewrite (digit_not_dot _ Hc), IH.
Qed.

Lemma all_digits_has_digit s : all_digits s = true → s ≠ "" → has_digit s = true.
Proof.
  destruct s as [|c r]; simpl; [done|].
  intros [Hc _]%andb_true_iff _. by rewrite Hc.
Qed.

Lemma all_digits_app p q :
  all_digits (p +:+ q) = all_digits p && all_digits q.
Proof.
  induction p as [|c r IH]; simpl; [done|]. by rewrite IH, andb_assoc.
Qed.

Lemma digits_and_dots_app p q :
  digits_and_dots (p +:+ q) = digits_and_dots p && digits_and_dots q.
Proof.
  induction p as [|c r IH]; simpl; [done|]. by rewrite IH, andb_assoc.
Qed.

Lemma no_dot_all_digits s :
  digits_and_dots s = true → has_dot s = false → all_digits s = true.
Proof.
  induction s as [|c r IH]; simpl; [done|].
  intros [Hc Hr]%andb_true_iff [Hd Hn]%orb_false_iff.
  rewrite Hd, orb_false_r in Hc. rewrite Hc. simpl. auto.
Qed.

(** ** The scan, flag by flag *)

(** After the decimal point: the rest must hold no second point, and a
    digit must have been seen or be still to come. *)
Lemma scan_after_dot s fp fs :
  scan s fp true fs = fp && negb (has_dot s) && (fs || has_digit s).
Proof.
  revert fs. induction s as [|c r IH]; intros fs; simpl.
  - by rewrite orb_false_r, andb_true_r.
  - destruct (is_digit c) eqn:Hc.
    + rewrite IH, (digit_not_dot _ Hc). simpl. by rewrite !orb_true_r.
    + destruct (is_dot c) eqn:Hd; simpl.
      * by rewrite andb_false_r.
      * apply IH.
Qed.

(** Before the decimal point. *)
Lemma scan_before_dot s fp fs :
  scan s fp false fs = true ↔
  ∃ p q, s = p +:+ "." +:+ q ∧ has_dot p = false ∧ has_dot q = false ∧
         (fp || has_digit p) = true ∧ (fs || has_digit q) = true.
Proof.
  revert fp. induction s as [|c r IH]; intros fp; simpl.
  - split; [by rewrite andb_false_r|].
    intros (p & q & Hs & _). by destruct p.
  - destruct (is_digit c) eqn:Hc.
    + rewrite IH. split.
      * intros (p & q & -> & Hp & Hq & _ & Hs).
        exists (String c p), q. simpl.
        rewrite Hc, (digit_not_dot _ Hc), orb_true_r. done.
      * intros (p & q & Hs & Hp & Hq & _ & Hsuf).
        destruct p as [|c' p]; simpl in *.
        { injection Hs as -> _. done. }
        injection Hs as -> ->.
        apply orb_false_iff in Hp as [_ Hp]. exists p, q. done.
    + destruct (is_dot c) eqn:Hd.
      * rewrite scan_after_dot.
        apply Ascii.eqb_eq in Hd as ->. split.
        -- intros [[Hfp Hn%negb_true_iff]%andb_true_iff Hs]%andb_true_iff.
           exists "", r. simpl. by rewrite orb_false_r.
        -- intros (p & q & Hs & Hp & Hq & Hpre & Hsuf).
           destruct p as [|c' p]; simpl in *.
           ++ injection Hs as Hs. subst r. rewrite orb_false_r in Hpre.
              change ("" +:+ q) with q. by rewrite Hpre, Hq, Hsuf.
           ++ injection Hs as <- _. done.
      * rewrite IH. split.
        -- intros (p & q & -> & Hp & Hq & Hpre & Hs).
           exists (String c p), q. simpl. rewrite Hc, Hd. done.
        -- intros (p & q & Hs & Hp & Hq & Hpre & Hsuf).
           destruct p as [|c' p]; simpl in *.
           { injection Hs as -> _. done. }
           injection Hs as -> ->. rewrite Hc in Hpre. simpl in *.
           apply orb_false_iff in Hp as [_ Hp]. exists p, q. done.
Qed.

(** The classifier accepts exactly the strings with one decimal point, a
    digit before it and a digit after it; other characters are passed
    over. *)
Lemma slack_is_slack_ts_lenient s :
  slack_is_slack_ts s = true ↔ lenient_ts s.
Proof.
  unfold slack_is_slack_ts, lenient_ts. rewrite scan_before_dot.
  by setoid_rewrite orb_false_l.
Qed.

Lemma canonical_lenient s : canonical_ts s → lenient_ts s.
Proof.
  intros (p & q & -> & Hp & Hq & Hdp & Hdq). exists p, q.
  split_and!; auto using all_digits_has_dot, all_digits_has_digit.
Qed.

(** Every canonical timestamp is accepted. *)
Lemma slack_is_slack_ts_complete s :
  canonical_ts s → slack_is_slack_ts s = true.
Proof. intros H. by apply slack_is_slack_ts_lenient, canonical_lenient. Qed.

(** On strings of digits and decimal points the classifier decides the
    grammar. *)
Lemma slack_is_slack_ts_digits_and_dots s :
  digits_and_dots s = true →
  slack_is_slack_ts s = true ↔ canonical_ts s.
Proof.
  intros Hs. split; [|apply slack_is_slack_ts_complete].
  intros (p & q & -> & Hp & Hq & Hdp & Hdq)%slack_is_slack_ts_lenient.
  rewrite !digits_and_dots_app in Hs.
  apply andb_true_iff in Hs as [Hsp [_ Hsq]%andb_true_iff].
  exists p, q. split_and!; auto using no_dot_all_digits.
  - by intros ->.
  - by intros ->.
Qed.

(** In a canonical timestamp every character is a digit or the point. *)
Lemma canonical_digits_and_dots s : canonical_ts s → digits_and_dots s = true.
Proof.
  intros (p & q & -> & _ & _ & Hp & Hq).
  assert (∀ r, all_digits r = true → digits_and_dots r = true) as Hall.
  { induction r as [|c r IH]; simpl; [done|].
    intros [-> ?]%andb_true_iff. simpl. auto. }
  rewrite !digits_and_dots_app, (Hall _ Hp), (Hall _ Hq). done.
Qed.

(** C1: the classifier is meant to accept the canonical grammar only, yet
    it returns true on ["1a.2"], which holds a letter: characters that are
    neither digits nor the decimal point are skipped instead of rejected. *)
Theorem slack_is_slack_ts_accepts_letter :
  slack_is_slack_ts "1a.2" = true ∧ ¬ canonical_ts "1a.2".
Proof.
  split; [reflexivity|].
  intros H%canonical_digits_and_dots. vm_compute in H. discriminate.
Qed.

Import Spec.

(** ** The world under the calls *)

Lemma with_thread_ts_restore c ts :
  with_thread_ts (with_thread_ts c ts) (thread_ts c) = c.
Proof. by destruct c. Qed.

Lemma deref_live w conv c : objs w !! conv = Some c → deref w conv = Done c.
Proof. unfold deref. by intros ->. Qed.

Lemma store_thread_ts_live w conv ts c :
  objs w !! conv = Some c →
  store_thread_ts w conv ts
  = Done (with_objs w (<[conv := with_thread_ts c ts]> (objs w))).
Proof. intros H. unfold store_thread_ts. by rewrite (deref_live _ _ _ H). Qed.

Lemma thread_op_free_trace w o :
  trace (thread_op_free w (Some o)) = trace w ++ release_events o.
Proof. simpl. by rewrite <- !app_assoc. Qed.

Lemma thread_op_free_objs w o : objs (thread_op_free w o) = objs w.
Proof. by destruct o. Qed.

(** ** Posting into a thread *)

(** With a live conversation a post returns, the store is as before, and
    the one call made is the send under the thread context [ts], or the
    debug line when the conversation is neither a channel nor a user. *)
Lemma slack_thread_post_live w conv ts msg c :
  objs w !! conv = Some c →
  slack_thread_post w conv ts (Some msg) = Done (emit (post_call c ts msg) w).
Proof.
  intros Hc. unfold slack_thread_post.
  rewrite (deref_live _ _ _ Hc), (store_thread_ts_live _ _ _ _ Hc). simpl.
  set (w1 := with_objs w _).
  assert (objs w1 !! conv = Some (with_thread_ts c (Some ts))) as H1.
  { subst w1. simpl. apply lookup_insert_eq. }
  unfold slack_thread_send_message. rewrite (deref_live _ _ _ H1). simpl.
  assert (∀ e, store_thread_ts (emit e w1) conv (thread_ts c) = Done (emit e w))
    as Hback.
  { intros e. rewrite (store_thread_ts_live _ _ _ (with_thread_ts c (Some ts)));
      [|done].
    f_equal. unfold emit, with_objs. subst w1. simpl.
    rewrite with_thread_ts_restore, insert_insert_eq, insert_id; done. }
  unfold post_call. destruct (otype c); simpl; apply Hback.
Qed.

(** C5: a post with a message on a live conversation returns; the send is
    made while the thread context is the resolved timestamp, and after the
    call the store of conversations, the thread context with it, is what
    it was before, whether the message could be sent or not. *)
Theorem slack_thread_post_restores_context w conv ts msg c :
  objs w !! conv = Some c →
  ∃ w', slack_thread_post w conv ts (Some msg) = Done w' ∧
        trace w' = trace w ++ [post_call c ts msg] ∧
        objs w' = objs w ∧
        thread_ts <$> objs w' !! conv = Some (thread_ts c) ∧
        (thread_ts c = None → thread_ts <$> objs w' !! conv = Some None).
Proof.
  intros Hc. eexists. split; [by apply slack_thread_post_live|].
  simpl. rewrite Hc. split_and!; try done. intros Hn. simpl. by rewrite Hn.
Qed.

Lemma slack_thread_post_restores_context_witness :
  objs Examples.w0 !! 1%nat = Some Examples.general ∧
  ∃ w', slack_thread_post Examples.w0 1%nat "1622548800.000100" (Some "hello")
        = Done w' ∧
        trace w' = trace Examples.w0
                   ++ [post_call Examples.general "1622548800.000100" "hello"] ∧
        objs w' = objs Examples.w0 ∧
        thread_ts <$> objs w' !! 1%nat = Some (thread_ts Examples.general) ∧
        (thread_ts Examples.general = None →
         thread_ts <$> objs w' !! 1%nat = Some None).
Proof.
  split; [reflexivity|].
  apply (slack_thread_post_restores_context Examples.w0 1%nat
           "1622548800.000100" "hello" Examples.general).
  reflexivity.
Defined.

(** C10: a post without a message returns at once: the world, its store
    and its calls, is untouched, whatever the conversation pointer is. *)
Theorem slack_thread_post_null_message w conv ts :
  slack_thread_post w conv ts None = Done w.
Proof. reflexivity. Qed.

(** ** The history query *)

(** The call of the dispatcher, with the bounds as [fmt_ld] prints
    them. *)
Lemma slack_thread_call_operation_fmt w obj o T c :
  objs w !! obj = Some c →
  ∃ w', slack_thread_call_operation w obj o T = Done w' ∧
        trace w' = trace w ++
          [EvApiGet slack_thread_cb_ptr (Some o) "conversations.history"
             [("channel", conversation_id c);
              ("oldest", fmt_ld T +:+ ".000000");
              ("latest", fmt_ld T +:+ ".999999")]] ∧
        objs w' = objs w.
Proof.
  intros Hc. unfold slack_thread_call_operation.
  rewrite (deref_live _ _ _ Hc). simpl. eauto.
Qed.

(** The bounds as they read for that instant. *)
Example window_1622557800 :
  fmt_ld 1622557800 +:+ ".000000" = "1622557800.000000" ∧
  fmt_ld 1622557800 +:+ ".999999" = "1622557800.999999".
Proof. split; reflexivity. Qed.

(** Two instants never share a bound. *)
Lemma fmt_ld_inj T1 T2 : fmt_ld T1 = fmt_ld T2 → T1 = T2.
Proof. apply (inj pretty). Qed.

(** ** The listing of candidates *)

Lemma string_app_assoc (a b c : string) : (a +:+ b) +:+ c = a +:+ b +:+ c.
Proof.
  induction a as [|x a IH]; [done|].
  change (String x (a +:+ b) +:+ c = String x (a +:+ b +:+ c)).
  change (String x ((a +:+ b) +:+ c) = String x (a +:+ b +:+ c)).
  by rewrite IH.
Qed.

Lemma string_app_empty_r (a : string) : a +:+ "" = a.
Proof.
  induction a as [|x a IH]; [done|].
  change (String x (a +:+ "") = String x a). by rewrite IH.
Qed.

Section Listing.

Variable color : string → string.

(** The loop adds the lines of the entries to what it started from. *)
Lemma fold_append_candidate values errmsg :
  fold_left (append_candidate color) values errmsg
  = errmsg +:+ concat_lines (candidate_lines color values).
Proof.
  revert errmsg. induction values as [|e values IH]; intros errmsg; simpl.
  - by rewrite string_app_empty_r.
  - rewrite IH. unfold append_candidate.
    destruct (json_get_prop_strptr (Some e) "ts") as [ts|]; simpl; [|done].
    by rewrite string_app_assoc.
Qed.

(** The message is the header and then the lines. *)
Lemma ambiguous_message_lines values :
  ambiguous_message color values
  = ambiguous_header +:+ concat_lines (candidate_lines color values).
Proof. apply fold_append_candidate. Qed.



End Listing.

(** ** The callback, branch by branch *)

Section CallbackFacts.

Variable color : string → string.

Lemma emit_trace e w : trace (emit e w) = trace w ++ [e].
Proof. done. Qed.

(** What the handler logs before it looks at the array. *)
Lemma query_log_trace w present error :
  trace (if negb present || bool_decide (is_Some error)
         then emit (EvDebugError "slack" ("Error querying threads: %s" +:+ nl)
                      [default "missing" error]) w
         else w)
  = trace w ++ query_log present error.
Proof.
  unfold query_log.
  destruct (negb present || bool_decide (is_Some error)); simpl; [done|].
  by rewrite app_nil_r.
Qed.

Lemma query_log_no_release present error :
  no_release (query_log present error).
Proof.
  unfold query_log, no_release.
  destruct (negb present || bool_decide (is_Some error)); repeat constructor.
Qed.

(** Without a [messages] array the handler reads the length of a NULL
    list. *)
Lemma slack_thread_cb_missing_array w o json error :
  json_get_prop_array json "messages" = None →
  slack_thread_cb color w (Some o) json error = Fault.
Proof.
  intros H. unfold slack_thread_cb, slack_thread_cb_body. by rewrite H.
Qed.

(** With an array, every path reaches the label [end]: the handler
    returns, and what it did before the release is known branch by
    branch. *)
Lemma slack_thread_cb_body_paths w o json error values c :
  json_get_prop_array json "messages" = Some values →
  objs w !! conv o = Some c →
  ∃ w' body,
    slack_thread_cb_body color w o json error = Done w' ∧
    trace w' = trace w ++ query_log true error ++ body ∧
    objs w' = objs w ∧
    body =
      match values with
      | [] => [EvWriteMessage (conv o) not_found_message PURPLE_MESSAGE_SYSTEM]
      | [e] =>
          match json_get_prop_strptr (Some e) "ts" with
          | None => [EvDebugMisc "slack"
                       ("Missing ts value in thread callback" +:+ nl)]
          | Some ts =>
              match op o, msg o with
              | ThreadOpPost, Some m => [post_call c ts m]
              | ThreadOpPost, None => []
              | ThreadOpGetReplies, _ => [EvGetThreadReplies (conv o) ts]
              end
          end
      | _ => [EvWriteMessage (conv o) (ambiguous_message color values)
                PURPLE_MESSAGE_SYSTEM]
      end.
Proof.
  intros Hl Hc. unfold slack_thread_cb_body. rewrite Hl.
  assert (bool_decide (is_Some (Some values)) = true) as -> by done.
  match goal with
  | |- context [if ?b then emit ?e w else w] =>
      set (w1 := if b then emit e w else w)
  end.
  assert (trace w1 = trace w ++ query_log true error) as Ht
    by apply (query_log_trace w true).
  assert (objs w1 = objs w) as Ho by (subst w1; by destruct (_ || _)).
  destruct values as [|e [|e' values]]; simpl.
  - eexists _, _. split; [done|]. simpl. rewrite Ht, <- app_assoc. done.
  - destruct (json_get_prop_strptr (Some e) "ts") as [ts|].
    + destruct (op o).
      * destruct (msg o) as [m|].
        -- rewrite (slack_thread_post_live _ _ _ _ c) by by rewrite Ho.
           eexists _, _. split; [done|]. simpl. rewrite Ht, <- app_assoc. done.
        -- eexists _, _. split; [done|]. rewrite Ht, app_nil_r. done.
      * eexists _, _. split; [done|]. simpl. rewrite Ht, <- app_assoc. done.
    + eexists _, _. split; [done|]. simpl. rewrite Ht, <- app_assoc. done.
  - eexists _, _. split; [done|]. simpl. rewrite Ht, <- app_assoc. done.
Qed.

End CallbackFacts.

(** ** The callback as a whole *)

Lemma post_call_no_release c ts m : is_release (post_call c ts m) = false.
Proof. unfold post_call. by destruct (otype c). Qed.

(** The run of the handler on an array of two entries or more. *)
Lemma slack_thread_cb_ambiguous_run color w o json error values :
  json_get_prop_array json "messages" = Some values →
  (1 < length values)%nat →
  ∃ w', slack_thread_cb color w (Some o) json error = Done w' ∧
        trace w' = trace w ++ query_log true error
                   ++ [EvWriteMessage (conv o) (ambiguous_message color values)
                         PURPLE_MESSAGE_SYSTEM]
                   ++ release_events o ∧
        objs w' = objs w.
Proof.
  intros Hl Hn. unfold slack_thread_cb, slack_thread_cb_body. rewrite Hl.
  assert (bool_decide (is_Some (Some values)) = true) as -> by done.
  match goal with
  | |- context [if ?b then emit ?e w else w] =>
      set (w1 := if b then emit e w else w)
  end.
  assert (trace w1 = trace w ++ query_log true error) as Ht
    by apply (query_log_trace w true).
  assert (objs w1 = objs w) as Ho by (subst w1; by destruct (_ || _)).
  destruct values as [|e [|e' values]]; simpl in Hn; [lia|lia|]. simpl.
  eexists. split; [done|]. simpl. rewrite Ht, <- !app_assoc. done.
Qed.


(** C2: on a transport error the response is NULL, so there is no
    [messages] array; the handler logs the error and then reads the length
    of the NULL list, which is undefined: no message is written and the
    handler does not return. *)
Theorem slack_thread_cb_transport_error_faults color w o error :
  slack_thread_cb color w (Some o) None (Some error) = Fault.
Proof. by apply slack_thread_cb_missing_array. Qed.

(** An error that comes with one entry does not stop the handler: the
    deferred post is made. *)
Example slack_thread_cb_error_with_entry :
  ∃ w', slack_thread_cb Examples.color0 Examples.w0 (Some Examples.post_hello)
          (Examples.response [Examples.entry "1.5" None]) (Some "timeout")
        = Done w' ∧
        List.filter is_send (trace w') = [EvChatSend 7 "hello" 0 (Some "1.5")] ∧
        List.filter is_write (trace w') = [].
Proof. eexists. split; [vm_compute; reflexivity|]. split; reflexivity. Qed.

(** The line the handler builds is the line as worded. *)
Lemma candidate_line_listed color ts text :
  candidate_line color ts text = Wording.listed_line color ts text.
Proof.
  unfold candidate_line, Wording.listed_line, Wording.font_tag,
    Wording.quoted_text.
  rewrite !string_app_assoc. by destruct text.
Qed.

Lemma candidate_lines_listing color values :
  concat_lines (candidate_lines color values) = Wording.listing color values.
Proof.
  induction values as [|e values IH]; simpl; [done|].
  destruct (json_get_prop_strptr (Some e) "ts") as [ts|]; simpl; [|done].
  by rewrite IH, candidate_line_listed.
Qed.

(** C3 as amended: with an operation and an array of two entries or more
    the handler writes one system message: the header, then one line for
    each entry that has a timestamp, in the order of the array.  A line
    is the timestamp in a font tag of its colour, then the whole text of
    the entry between quotes, or NULL, then a newline.  The handler then
    releases the operation and makes no other call but the debug line of
    an error: no send, no fetch. *)
Theorem slack_thread_cb_ambiguous color w o json error values :
  json_get_prop_array json "messages" = Some values →
  (1 < length values)%nat →
  ∃ w', slack_thread_cb color w (Some o) json error = Done w' ∧
        trace w' = trace w ++ query_log true error
                   ++ [EvWriteMessage (conv o)
                         (Wording.listing_header
                          +:+ Wording.listing color values)
                         PURPLE_MESSAGE_SYSTEM]
                   ++ release_events o ∧
        objs w' = objs w.
Proof.
  intros Hl Hn.
  destruct (slack_thread_cb_ambiguous_run color w o json error values Hl Hn)
    as (w' & Hrun & Ht & Ho).
  exists w'. split; [done|]. split; [|done].
  by rewrite Ht, ambiguous_message_lines, candidate_lines_listing.
Qed.

Lemma slack_thread_cb_ambiguous_witness :
  json_get_prop_array (Examples.response Examples.two_lines) "messages"
    = Some Examples.two_lines ∧
  (1 < length Examples.two_lines)%nat ∧
  ∃ w', slack_thread_cb Examples.color0 Examples.w0 (Some Examples.post_hello)
          (Examples.response Examples.two_lines) None = Done w' ∧
        trace w' = trace Examples.w0 ++ query_log true None
                   ++ [EvWriteMessage (conv Examples.post_hello)
                         (Wording.listing_header
                          +:+ Wording.listing Examples.color0
                                Examples.two_lines)
                         PURPLE_MESSAGE_SYSTEM]
                   ++ release_events Examples.post_hello ∧
        objs w' = objs Examples.w0.
Proof.
  split; [reflexivity|]. split; [simpl; lia|].
  apply (slack_thread_cb_ambiguous Examples.color0 Examples.w0
           Examples.post_hello (Examples.response Examples.two_lines) None
           Examples.two_lines); [reflexivity | simpl; lia].
Defined.

(** That message, character by character. *)
Example listing_two_lines :
  Wording.listing_header +:+ Wording.listing Examples.color0 Examples.two_lines
  = "Thread timestamp is ambiguous. Please use one of the following unambiguous thread IDs:"
    +:+ nl
    +:+ "<font color=" +:+ dquote +:+ "#336699" +:+ dquote
    +:+ ">1.000001</font> (" +:+ dquote +:+ "hi" +:+ nl +:+ "there"
    +:+ dquote +:+ ")" +:+ nl
    +:+ "<font color=" +:+ dquote +:+ "#336699" +:+ dquote
    +:+ ">1.000002</font> (" +:+ dquote +:+ "NULL" +:+ dquote +:+ ")" +:+ nl.
Proof. vm_compute. reflexivity. Qed.

(** C3, as first worded: the listing of a text of two lines holds both
    lines, where the specification shows the first line only. *)
Lemma slack_thread_cb_lists_whole_text :
  ∃ w', slack_thread_cb Examples.color0 Examples.w0 (Some Examples.post_hello)
          (Examples.response Examples.two_lines) None = Done w' ∧
        List.filter is_write (trace w')
        = [EvWriteMessage 1%nat
             (ambiguous_message Examples.color0 Examples.two_lines)
             PURPLE_MESSAGE_SYSTEM] ∧
        ambiguous_message Examples.color0 Examples.two_lines
        ≠ spec_ambiguous_message Examples.color0 Examples.two_lines.
Proof.
  eexists. split; [vm_compute; reflexivity|]. split; [reflexivity|].
  apply String.eqb_neq. vm_compute. reflexivity.
Qed.

(** A post that returns has made no release. *)
Lemma slack_thread_post_no_release w conv ts m w' :
  slack_thread_post w conv ts m = Done w' →
  ∃ body, trace w' = trace w ++ body ∧ no_release body.
Proof.
  destruct m as [m|].
  - destruct (objs w !! conv) as [c|] eqn:Hc.
    + rewrite (slack_thread_post_live _ _ _ _ c Hc). intros [= <-].
      exists [post_call c ts m]. split; [done|].
      repeat constructor. apply post_call_no_release.
    + unfold slack_thread_post, deref. by rewrite Hc.
  - simpl. intros [= <-]. exists []. split; [by rewrite app_nil_r|constructor].
Qed.

(** Up to the label [end] the handler makes no release. *)
Lemma slack_thread_cb_body_no_release color w o json error w' :
  slack_thread_cb_body color w o json error = Done w' →
  ∃ body, trace w' = trace w ++ body ∧ no_release body.
Proof.
  unfold slack_thread_cb_body.
  match goal with
  | |- context [if ?b then emit ?e w else w] =>
      set (w1 := if b then emit e w else w)
  end.
  assert (∃ log, trace w1 = trace w ++ log ∧ no_release log) as (log & Ht & Hlog).
  { subst w1. destruct (_ || _).
    - eexists. split; [done|]. by repeat constructor.
    - exists []. split; [by rewrite app_nil_r|constructor]. }
  assert (∀ e w2, is_release e = false → Done (emit e w1) = Done w2 →
                  ∃ body, trace w2 = trace w ++ body ∧ no_release body) as Hone.
  { intros e w2 He [= <-]. exists (log ++ [e]). simpl.
    rewrite Ht, <- app_assoc. split; [done|].
    apply Forall_app. split; [done|]. by repeat constructor. }
  destruct (json_get_prop_array json "messages") as [values|]; [|done].
  destruct (length values <=? 0)%nat; [by apply Hone|].
  destruct (1 <? length values)%nat; [by apply Hone|].
  destruct (json_get_prop_strptr (values !! 0%nat) "ts") as [ts|];
    [|by apply Hone].
  destruct (op o); [|by apply Hone].
  intros (body & Hb & Hnone)%slack_thread_post_no_release.
  exists (log ++ body). rewrite Hb, Ht, <- app_assoc. split; [done|].
  by apply Forall_app.
Qed.

(** Whenever the handler returns from a call with an operation,
    whichever path it took (no entry, several entries, one entry with or
    without a timestamp), the last calls it made are the release of the
    operation: one unref of the conversation, one free of the message, one
    free of the operation, with no other release before them; and it does
    return whenever the response has a [messages] array and the
    conversation is live. *)
Theorem slack_thread_cb_releases_once color w o json error :
  (∀ w', slack_thread_cb color w (Some o) json error = Done w' →
         ∃ body, trace w' = trace w ++ body ++ release_events o ∧
                 no_release body) ∧
  (∀ values c, json_get_prop_array json "messages" = Some values →
               objs w !! conv o = Some c →
               ∃ w', slack_thread_cb color w (Some o) json error = Done w').
Proof.
  split.
  - intros w'. unfold slack_thread_cb.
    destruct (slack_thread_cb_body color w o json error) as [w1|] eqn:Hrun;
      [|done].
    unfold bind. intros [= <-].
    destruct (slack_thread_cb_body_no_release _ _ _ _ _ _ Hrun)
      as (body & Ht & Hbody).
    exists body. split; [|done].
    change (trace (thread_op_free w1 (Some o))
            = trace w ++ body ++ release_events o).
    by rewrite thread_op_free_trace, Ht, <- app_assoc.
  - intros values c Hl Hc.
    destruct (slack_thread_cb_body_paths color w o json error values c Hl Hc)
      as (w1 & body & Hrun & _).
    unfold slack_thread_cb. rewrite Hrun. simpl. eauto.
Qed.

Lemma slack_thread_cb_releases_once_witness :
  json_get_prop_array
    (Examples.response [Examples.entry "1622557800.000100" (Some "root")])
    "messages"
  = Some [Examples.entry "1622557800.000100" (Some "root")] ∧
  objs Examples.w0 !! conv Examples.post_hello = Some Examples.general ∧
  ∃ w' body,
    slack_thread_cb Examples.color0 Examples.w0 (Some Examples.post_hello)
      (Examples.response [Examples.entry "1622557800.000100" (Some "root")])
      None = Done w' ∧
    trace w' = trace Examples.w0 ++ body ++ release_events Examples.post_hello ∧
    no_release body.
Proof.
  split; [reflexivity|]. split; [reflexivity|].
  destruct (slack_thread_cb_releases_once Examples.color0 Examples.w0
              Examples.post_hello
              (Examples.response
                 [Examples.entry "1622557800.000100" (Some "root")]) None)
    as [Hrelease Hreturn].
  destruct (Hreturn [Examples.entry "1622557800.000100" (Some "root")]
              Examples.general) as [w' Hw']; [reflexivity|reflexivity|].
  destruct (Hrelease w' Hw') as (body & Ht & Hbody).
  exists w', body. split; [exact Hw'|]. split; [exact Ht|exact Hbody].
Defined.

(** C4: with an operation, a NULL response and an error, which is what
    the callback receives when the query fails in transport, the handler
    reads the length of the NULL list before it comes to the label [end]:
    [thread_op_free] is not reached, so the conversation is not unref'd,
    the message and the operation are not freed, and the handler does not
    return. *)
Theorem slack_thread_cb_transport_error_no_release color w o error :
  slack_thread_cb_body color w o None (Some error) = Fault ∧
  ∀ w', slack_thread_cb color w (Some o) None (Some error) ≠ Done w'.
Proof.
  split; [reflexivity|].
  intros w'. by rewrite slack_thread_cb_missing_array.
Qed.



(** The message of that listing, as it is written. *)
Example listing_one_without_ts :
  ambiguous_message Examples.color0 Examples.one_without_ts
  = ambiguous_header
    +:+ "<font color=" +:+ dquote +:+ "#336699" +:+ dquote
    +:+ ">1.000001</font> (" +:+ dquote +:+ "hi" +:+ dquote +:+ ")" +:+ nl
    +:+ "<font color=" +:+ dquote +:+ "#336699" +:+ dquote
    +:+ ">1.000002</font> (" +:+ dquote +:+ "NULL" +:+ dquote +:+ ")" +:+ nl.
Proof. vm_compute. reflexivity. Qed.

(** ** The resolver of local time strings *)

Section ResolverFacts.

Context {libc : Time}.

(** The two attempts, in their order. *)
Lemma slack_get_ts_from_time_str_cases now time_str :
  let first := strptime time_str "%X" (localtime_r now) in
  let second := strptime time_str "%x-%X" first.2 in
  slack_get_ts_from_time_str now time_str
  = if decide (first.1 = Some (String.length time_str)) then mktime first.2
    else if decide (second.1 = Some (String.length time_str))
         then mktime second.2
         else 0.
Proof.
  intros first second. unfold slack_get_ts_from_time_str.
  subst first second.
  destruct (strptime time_str "%X" (localtime_r now)) as [r1 t1]. simpl.
  by destruct (strptime time_str "%x-%X" t1) as [r2 t2].
Qed.

(** C6 as amended: the resolver tries the time-only pattern on today's
    date and then the date-and-time pattern; an attempt counts only when
    it has gone past the whole string; the first one that counts gives the
    instant [mktime] returns for it, which is 0 when the time read is the
    epoch itself; when neither counts, trailing characters or not, the
    result is 0. *)
Theorem slack_get_ts_from_time_str_attempts now time_str :
  let first := strptime time_str "%X" (localtime_r now) in
  let second := strptime time_str "%x-%X" first.2 in
  (first.1 = Some (String.length time_str) →
   slack_get_ts_from_time_str now time_str = mktime first.2) ∧
  (first.1 ≠ Some (String.length time_str) →
   second.1 = Some (String.length time_str) →
   slack_get_ts_from_time_str now time_str = mktime second.2) ∧
  (first.1 ≠ Some (String.length time_str) →
   second.1 ≠ Some (String.length time_str) →
   slack_get_ts_from_time_str now time_str = 0).
Proof.
  intros first second. rewrite slack_get_ts_from_time_str_cases.
  fold first. fold second.
  repeat case_decide; split_and!; intros; congruence.
Qed.

(** Characters left over by both attempts give 0. *)
Lemma slack_get_ts_from_time_str_trailing now time_str k1 k2 :
  (strptime time_str "%X" (localtime_r now)).1 = Some k1 →
  (k1 < String.length time_str)%nat →
  (strptime time_str "%x-%X" (strptime time_str "%X" (localtime_r now)).2).1
    = Some k2 →
  (k2 < String.length time_str)%nat →
  slack_get_ts_from_time_str now time_str = 0.
Proof.
  intros H1 Hk1 H2 Hk2. rewrite slack_get_ts_from_time_str_cases. simpl.
  rewrite H1, H2.
  repeat case_decide; simplify_eq; try lia; done.
Qed.

End ResolverFacts.

(** ** The entry points *)

Section EntryFacts.

Context {libc : Time}.

(** A string that the classifier turns down and the resolver cannot read:
    the one call made is the system message. *)
Lemma slack_thread_post_to_timestamp_unparseable w obj timestr msg :
  slack_is_slack_ts timestr = false →
  slack_get_ts_from_time_str (clock w) timestr = 0 →
  slack_thread_post_to_timestamp w obj timestr msg
  = Done (emit (EvWriteMessage obj "Could not parse thread timestamp."
                  PURPLE_MESSAGE_SYSTEM) w).
Proof.
  intros Hc Hr. unfold slack_thread_post_to_timestamp. by rewrite Hc, Hr.
Qed.

Lemma slack_thread_get_replies_unparseable w obj timestr :
  slack_is_slack_ts timestr = false →
  slack_get_ts_from_time_str (clock w) timestr = 0 →
  slack_thread_get_replies w obj timestr
  = Done (emit (EvWriteMessage obj "Could not parse thread timestamp."
                  PURPLE_MESSAGE_SYSTEM) w).
Proof.
  intros Hc Hr. unfold slack_thread_get_replies. by rewrite Hc, Hr.
Qed.

(** A string the resolver reads: one reference taken for the operation,
    then the history query that carries it. *)
Lemma slack_thread_post_to_timestamp_resolved w obj timestr msg c :
  slack_is_slack_ts timestr = false →
  slack_get_ts_from_time_str (clock w) timestr ≠ 0 →
  objs w !! obj = Some c →
  ∃ w', slack_thread_post_to_timestamp w obj timestr msg = Done w' ∧
        trace w' = trace w ++
          [EvObjectRef obj;
           EvApiGet slack_thread_cb_ptr
             (Some {| conv := obj; op := ThreadOpPost; msg := msg |})
             "conversations.history"
             [("channel", conversation_id c);
              ("oldest", fmt_ld (slack_get_ts_from_time_str (clock w) timestr)
                         +:+ ".000000");
              ("latest", fmt_ld (slack_get_ts_from_time_str (clock w) timestr)
                         +:+ ".999999")]].
Proof.
  intros Hc Hr Hl. unfold slack_thread_post_to_timestamp. rewrite Hc.
  apply Z.eqb_neq in Hr. rewrite Hr. simpl.
  unfold slack_thread_call_operation.
  rewrite (deref_live _ _ c) by done. simpl.
  eexists. split; [done|]. simpl. by rewrite <- app_assoc.
Qed.

End EntryFacts.

(** ** In the POSIX locale, in UTC *)

#[local] Existing Instance PosixC.posix_time.

Lemma slack_get_ts_from_time_str_attempts_witness :
  (strptime "14:30:00" "%X"
     (localtime_r 1622548800)).1 = Some (String.length "14:30:00") ∧
  slack_get_ts_from_time_str 1622548800 "14:30:00"
  = mktime (strptime "14:30:00" "%X"
              (localtime_r 1622548800)).2.
Proof.
  split; [reflexivity|].
  destruct (slack_get_ts_from_time_str_attempts (libc := PosixC.posix_time)
              1622548800 "14:30:00") as [Hfirst _].
  apply Hfirst. reflexivity.
Defined.

(** In the POSIX locale and UTC, at noon of 2021-06-01: half past two of
    that day, the same with characters left over, and noon given with its
    date. *)
Example resolver_time_only :
  slack_get_ts_from_time_str 1622548800 "14:30:00"
  = 1622557800.
Proof. reflexivity. Qed.

Example resolver_trailing :
  slack_get_ts_from_time_str 1622548800
    "14:30:00 extra" = 0.
Proof. reflexivity. Qed.

Example resolver_date_and_time :
  slack_get_ts_from_time_str 1622548800
    "06/01/21-12:00:00" = 1622548800.
Proof. reflexivity. Qed.

(** C6, as first worded: the first second of 1970, in UTC: the
    date-and-time pattern goes past the whole string, and the resolver
    returns 0, the value that stands for a string that could not be
    read. *)
Lemma slack_get_ts_from_time_str_epoch :
  (strptime "01/01/70-00:00:00" "%x-%X"
     (strptime "01/01/70-00:00:00" "%X"
        (localtime_r 1622548800)).2).1
  = Some (String.length "01/01/70-00:00:00") ∧
  slack_get_ts_from_time_str 1622548800
    "01/01/70-00:00:00" = 0.
Proof. split; reflexivity. Qed.

(** C8: ["1a.2"] is no canonical timestamp and the resolver cannot read
    it, yet neither entry point writes the system message: the classifier
    lets the letter pass, the post is sent with ["1a.2"] as its thread and
    the replies of ["1a.2"] are fetched. *)
Theorem entry_points_accept_letter :
  ¬ canonical_ts "1a.2" ∧
  slack_get_ts_from_time_str (clock Examples.w0) "1a.2"
  = 0 ∧
  (∃ w', slack_thread_post_to_timestamp Examples.w0
           1%nat "1a.2" (Some "hello") = Done w' ∧
         trace w' = [EvChatSend 7 "hello" 0 (Some "1a.2")]) ∧
  (∃ w', slack_thread_get_replies Examples.w0
           1%nat "1a.2" = Done w' ∧
         trace w' = [EvGetThreadReplies 1%nat "1a.2"]).
Proof.
  split.
  { intros H%canonical_digits_and_dots. vm_compute in H. discriminate. }
  split; [reflexivity|].
  split; eexists; (split; [vm_compute; reflexivity|reflexivity]).
Qed.

(** * Further properties of slack-thread.c *)

Import Coverage.

(** ** The classifier *)

Lemma count_dots_app a b :
  count_dots (a +:+ b) = (count_dots a + count_dots b)%nat.
Proof.
  induction a as [|c a IH]; [done|].
  change (count_dots (String c (a +:+ b))
          = (count_dots (String c a) + count_dots b)%nat).
  simpl. rewrite IH. lia.
Qed.

Lemma no_dot_count s : has_dot s = false → count_dots s = 0%nat.
Proof.
  induction s as [|c r IH]; simpl; [done|].
  intros [-> Hr]%orb_false_iff. by rewrite IH.
Qed.

Lemma has_digit_app a b : has_digit (a +:+ b) = has_digit a || has_digit b.
Proof.
  induction a as [|c a IH]; [done|].
  change (has_digit (String c (a +:+ b))
          = has_digit (String c a) || has_digit b).
  simpl. by rewrite IH, orb_assoc.
Qed.

(** A character that is neither a digit nor the point leaves the flags of
    the scan as they are. *)
Lemma scan_skip a c b fp fd fs :
  is_digit c = false → is_dot c = false →
  scan (a +:+ String c b) fp fd fs = scan (a +:+ b) fp fd fs.
Proof.
  intros Hc Hd. revert fp fd fs.
  induction a as [|x a IH]; intros fp fd fs.
  - change (scan (String c b) fp fd fs = scan b fp fd fs).
    simpl. by rewrite Hc, Hd.
  - change (scan (String x (a +:+ String c b)) fp fd fs
            = scan (String x (a +:+ b)) fp fd fs).
    simpl. rewrite !IH. done.
Qed.

(** X1: the classifier returns true exactly on the strings that have one
    decimal point, a digit somewhere before it and a digit somewhere
    after it. *)
Theorem classifier_accepts_exactly s :
  slack_is_slack_ts s = true ↔
  ∃ p q : string,
    s = p +:+ "." +:+ q ∧ has_dot p = false ∧ has_dot q = false ∧
    has_digit p = true ∧ has_digit q = true.
Proof. apply slack_is_slack_ts_lenient. Qed.

(** X2: on a string of digits and decimal points the classifier decides
    the grammar of the canonical timestamp: digits, one point, digits. *)
Theorem classifier_decides_grammar s :
  digits_and_dots s = true →
  slack_is_slack_ts s = true ↔ canonical_ts s.
Proof. apply slack_is_slack_ts_digits_and_dots. Qed.

Lemma classifier_decides_grammar_witness :
  digits_and_dots "1622548800.000100" = true ∧
  (slack_is_slack_ts "1622548800.000100" = true
   ↔ canonical_ts "1622548800.000100").
Proof.
  split; [reflexivity|].
  apply (classifier_decides_grammar "1622548800.000100"). reflexivity.
Defined.

(** X3: a character that is neither a digit nor the decimal point has no
    part in the answer: the classifier says the same with it and without
    it, wherever it stands. *)
Theorem classifier_ignores_other_characters a c b :
  is_digit c = false → is_dot c = false →
  slack_is_slack_ts (a +:+ String c b) = slack_is_slack_ts (a +:+ b).
Proof. intros Hc Hd. by apply scan_skip. Qed.

Lemma classifier_ignores_other_characters_witness :
  is_digit "a" = false ∧ is_dot "a" = false ∧
  slack_is_slack_ts ("1" +:+ String "a" ".2") = slack_is_slack_ts ("1" +:+ ".2").
Proof.
  split; [reflexivity|]. split; [reflexivity|].
  apply (classifier_ignores_other_characters "1" "a" ".2"); reflexivity.
Defined.

(** X4: a string the classifier accepts holds exactly one decimal point
    and at least two digits; without a point, or with two, the answer is
    false. *)
Theorem classifier_one_point s :
  slack_is_slack_ts s = true →
  count_dots s = 1%nat ∧ has_digit s = true ∧ (3 ≤ String.length s)%nat.
Proof.
  intros (p & q & -> & Hp & Hq & Hdp & Hdq)%slack_is_slack_ts_lenient.
  rewrite !count_dots_app, (no_dot_count _ Hp), (no_dot_count _ Hq).
  rewrite has_digit_app, Hdp. split; [done|]. split; [done|].
  destruct p as [|x p]; [done|]. destruct q as [|y q]; [done|].
  clear. induction p as [|z p IH]; simpl in *; lia.
Qed.

Lemma classifier_one_point_witness :
  slack_is_slack_ts "1622548800.000100" = true ∧
  count_dots "1622548800.000100" = 1%nat ∧
  has_digit "1622548800.000100" = true ∧
  (3 ≤ String.length "1622548800.000100")%nat.
Proof.
  split; [reflexivity|].
  apply (classifier_one_point "1622548800.000100"). reflexivity.
Defined.

(** ** The callback, path by path *)

Lemma log_not_action log :
  Forall (λ e, is_log e = true) log → List.filter is_action log = [].
Proof.
  induction 1 as [|e log He _ IH]; [done|].
  simpl. rewrite IH. by destruct e.
Qed.

Lemma single_action_after_log log body :
  Forall (λ e, is_log e = true) log → single_action body →
  single_action (log ++ body).
Proof.
  intros Hlog [Hall Hone]. split.
  - apply Forall_app. split; [|done].
    eapply Forall_impl; [exact Hlog|]. by intros e ->.
  - by rewrite List.filter_app, (log_not_action _ Hlog).
Qed.

(** A post that returns has put the store back and made one send, or one
    debug line, or nothing. *)
Lemma slack_thread_post_effects w conv ts m w' :
  slack_thread_post w conv ts m = Done w' →
  objs w' = objs w ∧ clock w' = clock w ∧
  ∃ body, trace w' = trace w ++ body ∧ single_action body.
Proof.
  destruct m as [m|].
  - destruct (objs w !! conv) as [c|] eqn:Hc.
    + rewrite (slack_thread_post_live _ _ _ _ c Hc). intros [= <-].
      split; [done|]. split; [done|].
      exists [post_call c ts m]. split; [done|].
      unfold post_call. destruct (otype c); split; simpl;
        repeat constructor.
    + unfold slack_thread_post, deref. by rewrite Hc.
  - simpl. intros [= <-]. split; [done|]. split; [done|].
    exists []. split; [by rewrite app_nil_r|]. split; [constructor|simpl; lia].
Qed.

Section CallbackPaths.

Variable color : string → string.

(** Up to the label [end]: the store and the clock are as they were, and
    debug lines apart the handler has made at most one call. *)
Lemma slack_thread_cb_body_effects w o json error w' :
  slack_thread_cb_body color w o json error = Done w' →
  objs w' = objs w ∧ clock w' = clock w ∧
  ∃ body, trace w' = trace w ++ body ∧ single_action body.
Proof.
  unfold slack_thread_cb_body.
  match goal with
  | |- context [if ?b then emit ?e w else w] =>
      set (w1 := if b then emit e w else w)
  end.
  assert (∃ log, trace w1 = trace w ++ log ∧ objs w1 = objs w ∧
                 clock w1 = clock w ∧ Forall (λ e, is_log e = true) log)
    as (log & Ht & Ho & Hk & Hlog).
  { subst w1. destruct (_ || _).
    - eexists. split; [done|]. by repeat constructor.
    - exists []. split; [by rewrite app_nil_r|]. by repeat constructor. }
  assert (∀ e w2, is_log e || is_action e = true →
                  Done (emit e w1) = Done w2 →
                  objs w2 = objs w ∧ clock w2 = clock w ∧
                  ∃ body, trace w2 = trace w ++ body ∧ single_action body)
    as Hone.
  { intros e w2 He [= <-]. split; [done|]. split; [done|].
    exists (log ++ [e]). simpl. rewrite Ht, <- app_assoc. split; [done|].
    apply single_action_after_log; [done|]. split; [by repeat constructor|].
    simpl. destruct (is_action e); simpl; lia. }
  destruct (json_get_prop_array json "messages") as [values|]; [|done].
  destruct (length values <=? 0)%nat; [by apply Hone|].
  destruct (1 <? length values)%nat; [by apply Hone|].
  destruct (json_get_prop_strptr (values !! 0%nat) "ts") as [ts|];
    [|by apply Hone].
  destruct (op o); [|by apply Hone].
  intros (Ho' & Hk' & body & Hb & Hbody)%slack_thread_post_effects.
  split; [congruence|]. split; [congruence|].
  exists (log ++ body). rewrite Hb, Ht, <- app_assoc. split; [done|].
  by apply single_action_after_log.
Qed.

(** The run of the handler on an array of one entry. *)
Lemma slack_thread_cb_single_run w o json error e :
  json_get_prop_array json "messages" = Some [e] →
  slack_thread_cb color w (Some o) json error
  = let* w1 :=
      match json_get_prop_strptr (Some e) "ts" with
      | None =>
          Done (emit (EvDebugMisc "slack"
                        ("Missing ts value in thread callback" +:+ nl))
                  (if bool_decide (is_Some error)
                   then emit (EvDebugError "slack"
                                ("Error querying threads: %s" +:+ nl)
                                [default "missing" error]) w
                   else w))
      | Some ts =>
          let w0 := if bool_decide (is_Some error)
                    then emit (EvDebugError "slack"
                                 ("Error querying threads: %s" +:+ nl)
                                 [default "missing" error]) w
                    else w in
          match op o with
          | ThreadOpPost => slack_thread_post w0 (conv o) ts (msg o)
          | ThreadOpGetReplies => Done (slack_get_thread_replies w0 (conv o) ts)
          end
      end in
    Done (thread_op_free w1 (Some o)).
Proof.
  intros Hl. unfold slack_thread_cb, slack_thread_cb_body. rewrite Hl.
  assert (bool_decide (is_Some (Some [e])) = true) as -> by done.
  reflexivity.
Qed.

Lemma query_log_present w error :
  trace (if bool_decide (is_Some error)
         then emit (EvDebugError "slack" ("Error querying threads: %s" +:+ nl)
                      [default "missing" error]) w
         else w)
  = trace w ++ query_log true error.
Proof. apply (query_log_trace w true). Qed.


(** The run of the handler on one entry with a post to make. *)
Lemma slack_thread_cb_single_post_run w o json error e ts m c :
  json_get_prop_array json "messages" = Some [e] →
  json_get_prop_strptr (Some e) "ts" = Some ts →
  op o = ThreadOpPost → msg o = Some m →
  objs w !! conv o = Some c →
  ∃ w', slack_thread_cb color w (Some o) json error = Done w' ∧
        trace w' = trace w ++ query_log true error
                   ++ [post_call c ts m] ++ release_events o ∧
        objs w' = objs w.
Proof.
  intros Hl Hts Hop Hm Hc. rewrite (slack_thread_cb_single_run _ _ _ _ e Hl).
  rewrite Hts, Hop, Hm. cbv zeta.
  match goal with
  | |- context [if ?b then emit ?ev w else w] =>
      set (w0 := if b then emit ev w else w)
  end.
  assert (trace w0 = trace w ++ query_log true error) as Ht
    by apply query_log_present.
  assert (objs w0 = objs w) as Ho by (subst w0; by destruct (bool_decide _)).
  rewrite (slack_thread_post_live w0 _ _ _ c) by by rewrite Ho.
  eexists. split; [done|]. split; [|done].
  change (trace (thread_op_free (emit (post_call c ts m) w0) (Some o))
          = trace w ++ query_log true error ++ [post_call c ts m]
            ++ release_events o).
  rewrite thread_op_free_trace. simpl. rewrite Ht, <- !app_assoc. done.
Qed.

(** The run of the handler on one entry with replies to fetch. *)
Lemma slack_thread_cb_single_fetch_run w o json error e ts :
  json_get_prop_array json "messages" = Some [e] →
  json_get_prop_strptr (Some e) "ts" = Some ts →
  op o = ThreadOpGetReplies →
  ∃ w', slack_thread_cb color w (Some o) json error = Done w' ∧
        trace w' = trace w ++ query_log true error
                   ++ [EvGetThreadReplies (conv o) ts] ++ release_events o ∧
        objs w' = objs w.
Proof.
  intros Hl Hts Hop. rewrite (slack_thread_cb_single_run _ _ _ _ e Hl).
  rewrite Hts, Hop. cbv zeta.
  match goal with
  | |- context [if ?b then emit ?ev w else w] =>
      set (w0 := if b then emit ev w else w)
  end.
  assert (trace w0 = trace w ++ query_log true error) as Ht
    by apply query_log_present.
  assert (objs w0 = objs w) as Ho by (subst w0; by destruct (bool_decide _)).
  eexists. split; [done|]. split; [|done].
  change (trace (thread_op_free (emit (EvGetThreadReplies (conv o) ts) w0)
                   (Some o))
          = trace w ++ query_log true error
            ++ [EvGetThreadReplies (conv o) ts] ++ release_events o).
  rewrite thread_op_free_trace. simpl. rewrite Ht, <- !app_assoc. done.
Qed.

(** X6: with one entry in the array and a post to make, the message is
    sent once, under the timestamp of that entry as the thread context,
    the operation is released, no system message is written and the
    conversations are afterwards as before. *)
Theorem slack_thread_cb_single_post w o json error e ts m c :
  json_get_prop_array json "messages" = Some [e] →
  json_get_prop_strptr (Some e) "ts" = Some ts →
  op o = ThreadOpPost → msg o = Some m →
  objs w !! conv o = Some c →
  ∃ w', slack_thread_cb color w (Some o) json error = Done w' ∧
        trace w' = trace w ++ query_log true error
                   ++ [post_call c ts m] ++ release_events o ∧
        objs w' = objs w.
Proof. apply slack_thread_cb_single_post_run. Qed.

(** X7: with one entry in the array and replies to fetch, the replies of
    the timestamp of that entry are asked for once and the operation is
    released; the conversation object itself is not read. *)
Theorem slack_thread_cb_single_fetch w o json error e ts :
  json_get_prop_array json "messages" = Some [e] →
  json_get_prop_strptr (Some e) "ts" = Some ts →
  op o = ThreadOpGetReplies →
  ∃ w', slack_thread_cb color w (Some o) json error = Done w' ∧
        trace w' = trace w ++ query_log true error
                   ++ [EvGetThreadReplies (conv o) ts] ++ release_events o ∧
        objs w' = objs w.
Proof. apply slack_thread_cb_single_fetch_run. Qed.

(** X8: with one entry that has no timestamp the handler tells the user
    nothing: one line goes to the debug log, the operation is released,
    and no message is written, sent or fetched, whatever the operation
    was. *)
Theorem slack_thread_cb_single_without_ts w o json error e :
  json_get_prop_array json "messages" = Some [e] →
  json_get_prop_strptr (Some e) "ts" = None →
  ∃ w', slack_thread_cb color w (Some o) json error = Done w' ∧
        trace w' = trace w ++ query_log true error
                   ++ [EvDebugMisc "slack"
                         ("Missing ts value in thread callback" +:+ nl)]
                   ++ release_events o ∧
        List.filter is_action (trace w') = List.filter is_action (trace w) ∧
        objs w' = objs w.
Proof.
  intros Hl Hts. rewrite (slack_thread_cb_single_run _ _ _ _ e Hl).
  rewrite Hts.
  match goal with
  | |- context [if ?b then emit ?ev w else w] =>
      set (w0 := if b then emit ev w else w)
  end.
  assert (trace w0 = trace w ++ query_log true error) as Ht
    by apply query_log_present.
  assert (objs w0 = objs w) as Ho by (subst w0; by destruct (bool_decide _)).
  eexists. split; [done|].
  assert (trace (thread_op_free
                   (emit (EvDebugMisc "slack"
                            ("Missing ts value in thread callback" +:+ nl)) w0)
                   (Some o))
          = trace w ++ query_log true error
            ++ [EvDebugMisc "slack"
                  ("Missing ts value in thread callback" +:+ nl)]
            ++ release_events o) as Hfull.
  { rewrite thread_op_free_trace. simpl. rewrite Ht, <- !app_assoc. done. }
  split; [exact Hfull|]. split; [|done].
  rewrite Hfull, !List.filter_app. simpl.
  unfold query_log. destruct (_ || _); simpl; by rewrite app_nil_r.
Qed.

(** X9: whenever the handler returns, the conversations and the clock are
    what they were: the thread context that a post sets is put back on
    every path. *)
Theorem slack_thread_cb_keeps_store w data json error w' :
  slack_thread_cb color w data json error = Done w' →
  objs w' = objs w ∧ clock w' = clock w.
Proof.
  destruct data as [o|]; [|by intros [= <-]].
  unfold slack_thread_cb.
  destruct (slack_thread_cb_body color w o json error) as [w1|] eqn:Hrun;
    [|done].
  unfold bind. intros [= <-].
  apply slack_thread_cb_body_effects in Hrun as (Ho & Hk & _).
  by simpl.
Qed.

(** X10: whenever the handler returns from a call with an operation, it
    has made, debug lines apart, at most one call before the release: a
    system message, a send or a fetch; it never asks the history again
    and never takes a reference. *)
Theorem slack_thread_cb_single_action w o json error w' :
  slack_thread_cb color w (Some o) json error = Done w' →
  ∃ body, trace w' = trace w ++ body ++ release_events o ∧
          Forall (λ e, is_log e || is_action e = true) body ∧
          (length (List.filter is_action body) ≤ 1)%nat.
Proof.
  unfold slack_thread_cb.
  destruct (slack_thread_cb_body color w o json error) as [w1|] eqn:Hrun;
    [|done].
  unfold bind. intros [= <-].
  apply slack_thread_cb_body_effects in Hrun as (_ & _ & body & Ht & Hall & Hn).
  exists body. split; [|done].
  change (trace (thread_op_free w1 (Some o))
          = trace w ++ body ++ release_events o).
  by rewrite thread_op_free_trace, Ht, <- app_assoc.
Qed.

(** X11: when the response has a [messages] array and the conversation
    is live, the error argument shows in the debug log and nowhere else:
    the handler returns with and without the error, after the same calls
    but for the one debug line that carries the error, and with the same
    conversations. *)
Theorem slack_thread_cb_error_only_logged w o json err values c :
  json_get_prop_array json "messages" = Some values →
  objs w !! conv o = Some c →
  ∃ w1 w2 rest,
    slack_thread_cb color w (Some o) json (Some err) = Done w1 ∧
    slack_thread_cb color w (Some o) json None = Done w2 ∧
    trace w1 = trace w
               ++ [EvDebugError "slack" ("Error querying threads: %s" +:+ nl)
                     [err]]
               ++ rest ∧
    trace w2 = trace w ++ rest ∧
    objs w1 = objs w2.
Proof.
  intros Hl Hc.
  destruct (slack_thread_cb_body_paths color w o json (Some err) values c Hl Hc)
    as (w1 & body1 & Hrun1 & Ht1 & Ho1 & Hb1).
  destruct (slack_thread_cb_body_paths color w o json None values c Hl Hc)
    as (w2 & body2 & Hrun2 & Ht2 & Ho2 & Hb2).
  assert (body1 = body2) as <- by congruence.
  exists (thread_op_free w1 (Some o)), (thread_op_free w2 (Some o)),
         (body1 ++ release_events o).
  unfold slack_thread_cb. rewrite Hrun1, Hrun2.
  split; [done|]. split; [done|].
  rewrite !thread_op_free_trace, !thread_op_free_objs, Ht1, Ht2, Ho1, Ho2.
  split; [|split; [|done]].
  - change (query_log true (Some err))
      with [EvDebugError "slack" ("Error querying threads: %s" +:+ nl) [err]].
    by rewrite <- !app_assoc.
  - change (query_log true None) with (@nil event).
    by rewrite <- !app_assoc.
Qed.

End CallbackPaths.

Lemma slack_thread_cb_error_only_logged_witness :
  json_get_prop_array one_match "messages"
    = Some [Examples.entry "1622557800.000100" (Some "root")] ∧
  objs Examples.w0 !! conv Examples.post_hello = Some Examples.general ∧
  ∃ w1 w2 rest,
    slack_thread_cb Examples.color0 Examples.w0 (Some Examples.post_hello)
      one_match (Some "timeout") = Done w1 ∧
    slack_thread_cb Examples.color0 Examples.w0 (Some Examples.post_hello)
      one_match None = Done w2 ∧
    trace w1 = trace Examples.w0
               ++ [EvDebugError "slack" ("Error querying threads: %s" +:+ nl)
                     ["timeout"]]
               ++ rest ∧
    trace w2 = trace Examples.w0 ++ rest ∧
    objs w1 = objs w2.
Proof.
  split; [reflexivity|]. split; [reflexivity|].
  apply (slack_thread_cb_error_only_logged Examples.color0 Examples.w0
           Examples.post_hello one_match "timeout"
           [Examples.entry "1622557800.000100" (Some "root")]
           Examples.general); reflexivity.
Defined.


Lemma slack_thread_cb_single_post_witness :
  json_get_prop_array one_match "messages"
    = Some [Examples.entry "1622557800.000100" (Some "root")] ∧
  json_get_prop_strptr
    (Some (Examples.entry "1622557800.000100" (Some "root"))) "ts"
    = Some "1622557800.000100" ∧
  op Examples.post_hello = ThreadOpPost ∧
  msg Examples.post_hello = Some "hello" ∧
  objs Examples.w0 !! conv Examples.post_hello = Some Examples.general ∧
  ∃ w', slack_thread_cb Examples.color0 Examples.w0 (Some Examples.post_hello)
          one_match None = Done w' ∧
        trace w' = trace Examples.w0 ++ query_log true None
                   ++ [post_call Examples.general "1622557800.000100" "hello"]
                   ++ release_events Examples.post_hello ∧
        objs w' = objs Examples.w0.
Proof.
  do 5 (split; [reflexivity|]).
  apply (slack_thread_cb_single_post Examples.color0 Examples.w0
           Examples.post_hello one_match None
           (Examples.entry "1622557800.000100" (Some "root"))
           "1622557800.000100" "hello" Examples.general); reflexivity.
Defined.

Lemma slack_thread_cb_single_fetch_witness :
  json_get_prop_array one_match "messages"
    = Some [Examples.entry "1622557800.000100" (Some "root")] ∧
  json_get_prop_strptr
    (Some (Examples.entry "1622557800.000100" (Some "root"))) "ts"
    = Some "1622557800.000100" ∧
  op Examples.fetch_alice = ThreadOpGetReplies ∧
  ∃ w', slack_thread_cb Examples.color0 Examples.w0 (Some Examples.fetch_alice)
          one_match None = Done w' ∧
        trace w' = trace Examples.w0 ++ query_log true None
                   ++ [EvGetThreadReplies (conv Examples.fetch_alice)
                         "1622557800.000100"]
                   ++ release_events Examples.fetch_alice ∧
        objs w' = objs Examples.w0.
Proof.
  do 3 (split; [reflexivity|]).
  apply (slack_thread_cb_single_fetch Examples.color0 Examples.w0
           Examples.fetch_alice one_match None
           (Examples.entry "1622557800.000100" (Some "root"))
           "1622557800.000100"); reflexivity.
Defined.

Lemma slack_thread_cb_single_without_ts_witness :
  json_get_prop_array
    (Examples.response [json_object [("text", json_string "lost")]])
    "messages"
  = Some [json_object [("text", json_string "lost")]] ∧
  json_get_prop_strptr (Some (json_object [("text", json_string "lost")])) "ts"
  = None ∧
  ∃ w', slack_thread_cb Examples.color0 Examples.w0 (Some Examples.post_hello)
          (Examples.response [json_object [("text", json_string "lost")]])
          None = Done w' ∧
        trace w' = trace Examples.w0 ++ query_log true None
                   ++ [EvDebugMisc "slack"
                         ("Missing ts value in thread callback" +:+ nl)]
                   ++ release_events Examples.post_hello ∧
        List.filter is_action (trace w')
        = List.filter is_action (trace Examples.w0) ∧
        objs w' = objs Examples.w0.
Proof.
  do 2 (split; [reflexivity|]).
  apply (slack_thread_cb_single_without_ts Examples.color0 Examples.w0
           Examples.post_hello
           (Examples.response [json_object [("text", json_string "lost")]])
           None (json_object [("text", json_string "lost")])); reflexivity.
Defined.

Lemma slack_thread_cb_keeps_store_witness :
  ∃ w', slack_thread_cb Examples.color0 Examples.w0 (Some Examples.post_hello)
          one_match None = Done w' ∧
        objs w' = objs Examples.w0 ∧ clock w' = clock Examples.w0.
Proof.
  eexists. split; [vm_compute; reflexivity|].
  apply (slack_thread_cb_keeps_store Examples.color0 Examples.w0
           (Some Examples.post_hello) one_match None).
  vm_compute. reflexivity.
Defined.

Lemma slack_thread_cb_single_action_witness :
  ∃ w', slack_thread_cb Examples.color0 Examples.w0 (Some Examples.post_hello)
          one_match None = Done w' ∧
  ∃ body, trace w' = trace Examples.w0 ++ body
                     ++ release_events Examples.post_hello ∧
          Forall (λ e, is_log e || is_action e = true) body ∧
          (length (List.filter is_action body) ≤ 1)%nat.
Proof.
  eexists. split; [vm_compute; reflexivity|].
  apply (slack_thread_cb_single_action Examples.color0 Examples.w0
           Examples.post_hello one_match None).
  vm_compute. reflexivity.
Defined.

(** ** The entry points, path by path *)

Section EntryPaths.

Context {libc : Time}.

(** X12: with a canonical timestamp both entry points act at once: the
    post is sent under that timestamp and the replies of that timestamp
    are fetched; the clock is not read, no operation is built and the
    history is not asked. *)
Theorem entry_points_canonical w obj timestr m c :
  canonical_ts timestr →
  objs w !! obj = Some c →
  slack_thread_post_to_timestamp (libc := libc) w obj timestr (Some m)
  = Done (emit (post_call c timestr m) w) ∧
  slack_thread_get_replies (libc := libc) w obj timestr
  = Done (emit (EvGetThreadReplies obj timestr) w).
Proof.
  intros Hts%slack_is_slack_ts_complete Hc.
  unfold slack_thread_post_to_timestamp, slack_thread_get_replies.
  rewrite Hts. split; [|done]. by apply slack_thread_post_live.
Qed.

(** X13: when the classifier turns the string down and the resolver
    returns 0, each entry point writes the message that the timestamp
    could not be parsed, and makes no other call: no reference is taken,
    no operation is built, the history is not asked. *)
Theorem entry_points_unparseable w obj timestr m :
  slack_is_slack_ts timestr = false →
  slack_get_ts_from_time_str (libc := libc) (clock w) timestr = 0 →
  slack_thread_post_to_timestamp (libc := libc) w obj timestr m
  = Done (emit (EvWriteMessage obj "Could not parse thread timestamp."
                  PURPLE_MESSAGE_SYSTEM) w) ∧
  slack_thread_get_replies (libc := libc) w obj timestr
  = Done (emit (EvWriteMessage obj "Could not parse thread timestamp."
                  PURPLE_MESSAGE_SYSTEM) w).
Proof.
  intros Hc Hr.
  unfold slack_thread_post_to_timestamp, slack_thread_get_replies.
  by rewrite Hc, Hr.
Qed.

(** The dispatch of an operation on a live conversation. *)
Lemma slack_thread_call_operation_live w obj o T c :
  objs w !! obj = Some c →
  slack_thread_call_operation w obj o T
  = Done (emit (history_query o (conversation_id c) T) w).
Proof.
  intros Hc. unfold slack_thread_call_operation.
  by rewrite (deref_live _ _ _ Hc).
Qed.

(** X14: when the classifier turns the string down and the resolver
    gives an instant, each entry point takes one reference on the
    conversation and asks the history once, for the second of that
    instant; the operation that goes with the query is a post that
    carries the message, or a fetch without one. *)
Theorem entry_points_resolved w obj timestr m c :
  slack_is_slack_ts timestr = false →
  slack_get_ts_from_time_str (libc := libc) (clock w) timestr ≠ 0 →
  objs w !! obj = Some c →
  slack_thread_post_to_timestamp (libc := libc) w obj timestr m
  = Done (emit (history_query {| conv := obj; op := ThreadOpPost; msg := m |}
                  (conversation_id c)
                  (slack_get_ts_from_time_str (clock w) timestr))
            (emit (EvObjectRef obj) w)) ∧
  slack_thread_get_replies (libc := libc) w obj timestr
  = Done (emit (history_query
                  {| conv := obj; op := ThreadOpGetReplies; msg := None |}
                  (conversation_id c)
                  (slack_get_ts_from_time_str (clock w) timestr))
            (emit (EvObjectRef obj) w)).
Proof.
  intros Hc Hr Hl.
  unfold slack_thread_post_to_timestamp, slack_thread_get_replies.
  rewrite Hc. apply Z.eqb_neq in Hr. rewrite Hr. simpl.
  by rewrite !(slack_thread_call_operation_live _ _ _ _ c).
Qed.

(** X15: whenever an entry point returns, the conversations and the
    clock are what they were. *)
Theorem entry_points_keep_store w obj timestr m :
  (∀ w', slack_thread_post_to_timestamp (libc := libc) w obj timestr m
         = Done w' → objs w' = objs w ∧ clock w' = clock w) ∧
  (∀ w', slack_thread_get_replies (libc := libc) w obj timestr = Done w' →
         objs w' = objs w ∧ clock w' = clock w).
Proof.
  assert (∀ w0 o T w', slack_thread_call_operation w0 obj o T = Done w' →
                       objs w' = objs w0 ∧ clock w' = clock w0) as Hcall.
  { intros w0 o T w'. unfold slack_thread_call_operation, deref.
    destruct (objs w0 !! obj); [|done]. by intros [= <-]. }
  unfold slack_thread_post_to_timestamp, slack_thread_get_replies.
  split; intros w'; destruct (slack_is_slack_ts timestr).
  - intros (Ho & Hk & _)%slack_thread_post_effects. done.
  - destruct (_ =? 0); [by intros [= <-]|].
    simpl. intros Hrun%Hcall. done.
  - by intros [= <-].
  - destruct (_ =? 0); [by intros [= <-]|].
    simpl. intros Hrun%Hcall. done.
Qed.

(** X16: from the entry point to the end of the callback.  When the
    string is resolved to an instant, the post entry point takes one
    reference and asks the history; when the answer comes with a
    [messages] array, the callback run on the operation of that query
    returns, and its last calls give the reference back and free the
    message and the operation.  In between there are debug lines and at
    most one action; the conversations end as they began. *)
Theorem post_round_trip color w obj timestr m c json error values :
  slack_is_slack_ts timestr = false →
  slack_get_ts_from_time_str (libc := libc) (clock w) timestr ≠ 0 →
  objs w !! obj = Some c →
  json_get_prop_array json "messages" = Some values →
  let o := {| conv := obj; op := ThreadOpPost; msg := m |} in
  ∃ w1 w2 body,
    slack_thread_post_to_timestamp (libc := libc) w obj timestr m = Done w1 ∧
    last (trace w1)
    = Some (history_query o (conversation_id c)
              (slack_get_ts_from_time_str (clock w) timestr)) ∧
    slack_thread_cb color w1 (Some o) json error = Done w2 ∧
    trace w2 = trace w
               ++ [EvObjectRef obj;
                   history_query o (conversation_id c)
                     (slack_get_ts_from_time_str (clock w) timestr)]
               ++ body
               ++ [EvObjectUnref obj; EvFreeMsg m; EvFreeOp o] ∧
    Forall (λ e, is_log e || is_action e = true) body ∧
    (length (List.filter is_action body) ≤ 1)%nat ∧
    objs w2 = objs w.
Proof.
  intros Hc Hr Hl Hv o.
  set (T := slack_get_ts_from_time_str (clock w) timestr).
  set (w1 := emit (history_query o (conversation_id c) T)
               (emit (EvObjectRef obj) w)).
  assert (slack_thread_post_to_timestamp w obj timestr m = Done w1) as Hrun1.
  { unfold slack_thread_post_to_timestamp.
    rewrite Hc. apply Z.eqb_neq in Hr. rewrite Hr. simpl.
    by rewrite (slack_thread_call_operation_live _ _ _ _ c). }
  destruct (slack_thread_cb_body_paths color w1 o json error values c Hv)
    as (w2 & body0 & Hrun2 & _); [done|].
  destruct (slack_thread_cb_body_effects color w1 o json error w2 Hrun2)
    as (Ho & Hk & body & Ht & Hall & Hone).
  exists w1, (thread_op_free w2 (Some o)), body.
  split; [done|]. split; [subst w1; simpl; by rewrite last_snoc|].
  split; [unfold slack_thread_cb; by rewrite Hrun2|].
  split; [|done].
  rewrite thread_op_free_trace, Ht. subst w1. simpl.
  rewrite <- !app_assoc. done.
Qed.

End EntryPaths.

Lemma canonical_1622548800_000100 : canonical_ts "1622548800.000100".
Proof. exists "1622548800", "000100". by split_and!. Qed.

Lemma entry_points_canonical_witness :
  canonical_ts "1622548800.000100" ∧
  objs Examples.w0 !! 1%nat = Some Examples.general ∧
  slack_thread_post_to_timestamp (libc := PosixC.posix_time) Examples.w0 1%nat
    "1622548800.000100" (Some "hello")
  = Done (emit (post_call Examples.general "1622548800.000100" "hello")
            Examples.w0) ∧
  slack_thread_get_replies (libc := PosixC.posix_time) Examples.w0 1%nat
    "1622548800.000100"
  = Done (emit (EvGetThreadReplies 1%nat "1622548800.000100") Examples.w0).
Proof.
  split; [exact canonical_1622548800_000100|]. split; [reflexivity|].
  apply (entry_points_canonical (libc := PosixC.posix_time) Examples.w0 1%nat
           "1622548800.000100" "hello" Examples.general);
    [exact canonical_1622548800_000100 | reflexivity].
Defined.

Lemma entry_points_unparseable_witness :
  slack_is_slack_ts "tomorrow" = false ∧
  slack_get_ts_from_time_str (libc := PosixC.posix_time) (clock Examples.w0)
    "tomorrow" = 0 ∧
  slack_thread_post_to_timestamp (libc := PosixC.posix_time) Examples.w0 1%nat
    "tomorrow" (Some "hello")
  = Done (emit (EvWriteMessage 1%nat "Could not parse thread timestamp."
                  PURPLE_MESSAGE_SYSTEM) Examples.w0) ∧
  slack_thread_get_replies (libc := PosixC.posix_time) Examples.w0 1%nat
    "tomorrow"
  = Done (emit (EvWriteMessage 1%nat "Could not parse thread timestamp."
                  PURPLE_MESSAGE_SYSTEM) Examples.w0).
Proof.
  split; [reflexivity|]. split; [reflexivity|].
  apply (entry_points_unparseable (libc := PosixC.posix_time) Examples.w0 1%nat
           "tomorrow" (Some "hello")); reflexivity.
Defined.

Lemma entry_points_resolved_witness :
  slack_is_slack_ts "14:30:00" = false ∧
  slack_get_ts_from_time_str (libc := PosixC.posix_time) (clock Examples.w0)
    "14:30:00" ≠ 0 ∧
  objs Examples.w0 !! 1%nat = Some Examples.general ∧
  slack_thread_post_to_timestamp (libc := PosixC.posix_time) Examples.w0 1%nat
    "14:30:00" (Some "hello")
  = Done (emit (history_query
                  {| conv := 1%nat; op := ThreadOpPost; msg := Some "hello" |}
                  (conversation_id Examples.general)
                  (slack_get_ts_from_time_str (libc := PosixC.posix_time)
                     (clock Examples.w0) "14:30:00"))
            (emit (EvObjectRef 1%nat) Examples.w0)) ∧
  slack_thread_get_replies (libc := PosixC.posix_time) Examples.w0 1%nat
    "14:30:00"
  = Done (emit (history_query
                  {| conv := 1%nat; op := ThreadOpGetReplies; msg := None |}
                  (conversation_id Examples.general)
                  (slack_get_ts_from_time_str (libc := PosixC.posix_time)
                     (clock Examples.w0) "14:30:00"))
            (emit (EvObjectRef 1%nat) Examples.w0)).
Proof.
  split; [reflexivity|]. split; [by vm_compute|]. split; [reflexivity|].
  apply (entry_points_resolved (libc := PosixC.posix_time) Examples.w0 1%nat
           "14:30:00" (Some "hello") Examples.general);
    [reflexivity | by vm_compute | reflexivity].
Defined.

Lemma entry_points_keep_store_witness :
  slack_thread_post_to_timestamp (libc := PosixC.posix_time) Examples.w0
    1%nat "1622548800.000100" (Some "hello")
  = Done (emit (post_call Examples.general "1622548800.000100" "hello")
            Examples.w0) ∧
  objs (emit (post_call Examples.general "1622548800.000100" "hello")
          Examples.w0) = objs Examples.w0 ∧
  clock (emit (post_call Examples.general "1622548800.000100" "hello")
           Examples.w0) = clock Examples.w0.
Proof.
  assert (slack_thread_post_to_timestamp (libc := PosixC.posix_time)
            Examples.w0 1%nat "1622548800.000100" (Some "hello")
          = Done (emit (post_call Examples.general "1622548800.000100" "hello")
                    Examples.w0)) as Hrun.
  { apply slack_thread_post_live. reflexivity. }
  split; [exact Hrun|].
  exact (proj1 (entry_points_keep_store (libc := PosixC.posix_time)
                  Examples.w0 1%nat "1622548800.000100" (Some "hello"))
           _ Hrun).
Defined.

Lemma post_round_trip_witness :
  slack_is_slack_ts "14:30:00" = false ∧
  slack_get_ts_from_time_str (libc := PosixC.posix_time) (clock Examples.w0)
    "14:30:00" ≠ 0 ∧
  objs Examples.w0 !! 1%nat = Some Examples.general ∧
  json_get_prop_array one_match "messages"
    = Some [Examples.entry "1622557800.000100" (Some "root")] ∧
  let o := {| conv := 1%nat; op := ThreadOpPost; msg := Some "hello" |} in
  ∃ w1 w2 body,
    slack_thread_post_to_timestamp (libc := PosixC.posix_time) Examples.w0
      1%nat "14:30:00" (Some "hello") = Done w1 ∧
    last (trace w1)
    = Some (history_query o (conversation_id Examples.general)
              (slack_get_ts_from_time_str (libc := PosixC.posix_time)
                 (clock Examples.w0) "14:30:00")) ∧
    slack_thread_cb Examples.color0 w1 (Some o) one_match None = Done w2 ∧
    trace w2 = trace Examples.w0
               ++ [EvObjectRef 1%nat;
                   history_query o (conversation_id Examples.general)
                     (slack_get_ts_from_time_str (libc := PosixC.posix_time)
                        (clock Examples.w0) "14:30:00")]
               ++ body
               ++ [EvObjectUnref 1%nat; EvFreeMsg (Some "hello"); EvFreeOp o] ∧
    Forall (λ e, is_log e || is_action e = true) body ∧
    (length (List.filter is_action body) ≤ 1)%nat ∧
    objs w2 = objs Examples.w0.
Proof.
  split; [reflexivity|]. split; [by vm_compute|]. split; [reflexivity|].
  split; [reflexivity|].
  apply (post_round_trip (libc := PosixC.posix_time) Examples.color0
           Examples.w0 1%nat "14:30:00" (Some "hello") Examples.general
           one_match None [Examples.entry "1622557800.000100" (Some "root")]);
    [reflexivity | by vm_compute | reflexivity | reflexivity].
Defined.

(** The whole of that round trip, as it runs. *)
Example post_round_trip_runs :
  ∃ w1 w2,
    slack_thread_post_to_timestamp (libc := PosixC.posix_time) Examples.w0
      1%nat "14:30:00" (Some "hello") = Done w1 ∧
    slack_thread_cb Examples.color0 w1
      (Some {| conv := 1%nat; op := ThreadOpPost; msg := Some "hello" |})
      one_match None = Done w2 ∧
    trace w2
    = [EvObjectRef 1%nat;
       EvApiGet slack_thread_cb_ptr
         (Some {| conv := 1%nat; op := ThreadOpPost; msg := Some "hello" |})
         "conversations.history"
         [("channel", "C024BE91L"); ("oldest", "1622557800.000000");
          ("latest", "1622557800.999999")];
       EvChatSend 7 "hello" 0 (Some "1622557800.000100");
       EvObjectUnref 1%nat; EvFreeMsg (Some "hello");
       EvFreeOp {| conv := 1%nat; op := ThreadOpPost; msg := Some "hello" |}].
Proof.
  eexists _, _. split; [vm_compute; reflexivity|].
  split; [vm_compute; reflexivity|]. reflexivity.
Qed.

(** ** The bounds of the window *)

Lemma pretty_N_char_digit x : is_digit (pretty_N_char x) = true.
Proof. unfold pretty_N_char. by repeat case_match. Qed.

Lemma pretty_N_go_digits x s :
  all_digits s = true → all_digits (pretty_N_go x s) = true.
Proof.
  revert s. induction (N.lt_wf_0 x) as [x _ IH]; intros s Hs.
  assert (x = 0 ∨ 0 < x)%N as [->|Hx] by lia.
  - by rewrite pretty_N_go_0.
  - rewrite pretty_N_go_step by done. apply IH.
    + by apply N.div_lt.
    + simpl. by rewrite pretty_N_char_digit.
Qed.

Lemma pretty_N_go_nonempty x s : s ≠ "" → pretty_N_go x s ≠ "".
Proof.
  revert s. induction (N.lt_wf_0 x) as [x _ IH]; intros s Hs.
  assert (x = 0 ∨ 0 < x)%N as [->|Hx] by lia.
  - by rewrite pretty_N_go_0.
  - rewrite pretty_N_go_step by done. apply IH; [by apply N.div_lt|done].
Qed.

(** [%ld] of an instant that is not negative: digits, and at least one. *)
Lemma fmt_ld_digits T : 0 ≤ T → all_digits (fmt_ld T) = true ∧ fmt_ld T ≠ "".
Proof.
  intros HT. unfold fmt_ld, pretty, pretty_Z.
  destruct T as [|p|p]; [done| |lia].
  unfold pretty, pretty_positive, pretty, pretty_N.
  case_decide; [done|]. split; [by apply pretty_N_go_digits|].
  rewrite pretty_N_go_step by lia. by apply pretty_N_go_nonempty.
Qed.

(** X17: for an instant that is not negative, the two bounds of the
    query are canonical timestamps themselves, the first and the last of
    that second, and the classifier accepts them. *)
Theorem slack_thread_call_operation_canonical_bounds w obj o T c :
  0 ≤ T →
  objs w !! obj = Some c →
  ∃ w' oldest latest,
    slack_thread_call_operation w obj o T = Done w' ∧
    last (trace w')
    = Some (EvApiGet slack_thread_cb_ptr (Some o) "conversations.history"
              [("channel", conversation_id c); ("oldest", oldest);
               ("latest", latest)]) ∧
    canonical_ts oldest ∧ canonical_ts latest ∧
    slack_is_slack_ts oldest = true ∧ slack_is_slack_ts latest = true.
Proof.
  intros HT Hc. destruct (fmt_ld_digits T HT) as [Hd Hne].
  exists (emit (history_query o (conversation_id c) T) w),
         (fmt_ld T +:+ ".000000"), (fmt_ld T +:+ ".999999").
  assert (canonical_ts (fmt_ld T +:+ ".000000")) as Hold
    by (exists (fmt_ld T), "000000"; by split_and!).
  assert (canonical_ts (fmt_ld T +:+ ".999999")) as Hlat
    by (exists (fmt_ld T), "999999"; by split_and!).
  split; [by apply slack_thread_call_operation_live|].
  split; [simpl; by rewrite last_snoc|].
  split_and!; auto using slack_is_slack_ts_complete.
Qed.

Lemma slack_thread_call_operation_canonical_bounds_witness :
  0 ≤ 1622557800 ∧
  objs Examples.w0 !! 1%nat = Some Examples.general ∧
  ∃ w' oldest latest,
    slack_thread_call_operation Examples.w0 1%nat Examples.post_hello
      1622557800 = Done w' ∧
    last (trace w')
    = Some (EvApiGet slack_thread_cb_ptr (Some Examples.post_hello)
              "conversations.history"
              [("channel", conversation_id Examples.general);
               ("oldest", oldest); ("latest", latest)]) ∧
    canonical_ts oldest ∧ canonical_ts latest ∧
    slack_is_slack_ts oldest = true ∧ slack_is_slack_ts latest = true.
Proof.
  split; [lia|]. split; [reflexivity|].
  apply (slack_thread_call_operation_canonical_bounds Examples.w0 1%nat
           Examples.post_hello 1622557800 Examples.general);
    [lia | reflexivity].
Defined.

(** ** The deferred path and the direct path *)

Lemma query_log_not_action present error :
  List.filter is_action (query_log present error) = [].
Proof. unfold query_log. by destruct (_ || _). Qed.

Lemma release_not_action o : List.filter is_action (release_events o) = [].
Proof. done. Qed.

Section Transparency.

Context {libc : Time}.

Variable color : string → string.

(** X18: resolution changes nothing in what is done.  When the history
    returns one entry and its timestamp [ts] is canonical, the callback
    makes, debug lines and release apart, the very calls that the entry
    points make when they are given [ts] itself: the same send under the
    same thread context for a post, the same fetch for the replies. *)
Theorem resolution_is_transparent w obj json error e ts m c :
  json_get_prop_array json "messages" = Some [e] →
  json_get_prop_strptr (Some e) "ts" = Some ts →
  canonical_ts ts →
  objs w !! obj = Some c →
  (∃ w' wd,
     slack_thread_cb color w
       (Some {| conv := obj; op := ThreadOpPost; msg := Some m |}) json error
     = Done w' ∧
     slack_thread_post_to_timestamp (libc := libc) w obj ts (Some m) = Done wd ∧
     List.filter is_action (trace w') = List.filter is_action (trace wd)) ∧
  (∃ w' wd,
     slack_thread_cb color w
       (Some {| conv := obj; op := ThreadOpGetReplies; msg := None |}) json error
     = Done w' ∧
     slack_thread_get_replies (libc := libc) w obj ts = Done wd ∧
     List.filter is_action (trace w') = List.filter is_action (trace wd)).
Proof.
  intros Hl Hts Hcan%slack_is_slack_ts_complete Hc. split.
  - destruct (slack_thread_cb_single_post_run color w
                {| conv := obj; op := ThreadOpPost; msg := Some m |}
                json error e ts m c Hl Hts eq_refl eq_refl Hc)
      as (w' & Hrun & Ht & _).
    exists w', (emit (post_call c ts m) w). split; [done|]. split.
    + unfold slack_thread_post_to_timestamp. rewrite Hcan.
      by apply slack_thread_post_live.
    + rewrite Ht, emit_trace, !List.filter_app.
      rewrite query_log_not_action, release_not_action. simpl.
      by rewrite ?app_nil_r.
  - destruct (slack_thread_cb_single_fetch_run color w
                {| conv := obj; op := ThreadOpGetReplies; msg := None |}
                json error e ts Hl Hts eq_refl)
      as (w' & Hrun & Ht & _).
    exists w', (emit (EvGetThreadReplies obj ts) w). split; [done|]. split.
    + unfold slack_thread_get_replies. by rewrite Hcan.
    + rewrite Ht, emit_trace, !List.filter_app.
      rewrite query_log_not_action, release_not_action. simpl.
      by rewrite ?app_nil_r.
Qed.

End Transparency.

Lemma canonical_1622557800_000100 : canonical_ts "1622557800.000100".
Proof. exists "1622557800", "000100". by split_and!. Qed.

Lemma resolution_is_transparent_witness :
  json_get_prop_array one_match "messages"
    = Some [Examples.entry "1622557800.000100" (Some "root")] ∧
  json_get_prop_strptr
    (Some (Examples.entry "1622557800.000100" (Some "root"))) "ts"
    = Some "1622557800.000100" ∧
  canonical_ts "1622557800.000100" ∧
  objs Examples.w0 !! 1%nat = Some Examples.general ∧
  (∃ w' wd,
     slack_thread_cb Examples.color0 Examples.w0
       (Some {| conv := 1%nat; op := ThreadOpPost; msg := Some "hello" |})
       one_match None = Done w' ∧
     slack_thread_post_to_timestamp (libc := PosixC.posix_time) Examples.w0
       1%nat "1622557800.000100" (Some "hello") = Done wd ∧
     List.filter is_action (trace w') = List.filter is_action (trace wd)) ∧
  (∃ w' wd,
     slack_thread_cb Examples.color0 Examples.w0
       (Some {| conv := 1%nat; op := ThreadOpGetReplies; msg := None |})
       one_match None = Done w' ∧
     slack_thread_get_replies (libc := PosixC.posix_time) Examples.w0
       1%nat "1622557800.000100" = Done wd ∧
     List.filter is_action (trace w') = List.filter is_action (trace wd)).
Proof.
  split; [reflexivity|]. split; [reflexivity|].
  split; [exact canonical_1622557800_000100|]. split; [reflexivity|].
  apply (resolution_is_transparent (libc := PosixC.posix_time) Examples.color0
           Examples.w0 1%nat one_match None
           (Examples.entry "1622557800.000100" (Some "root"))
           "1622557800.000100" "hello" Examples.general);
    [reflexivity | reflexivity | exact canonical_1622557800_000100
     | reflexivity].
Defined.

(** ** What reaches the history *)

Lemma single_action_no_query body :
  single_action body → List.filter is_query body = [].
Proof.
  intros [Hall _]. induction Hall as [|e body He _ IH]; [done|].
  simpl. rewrite IH. by destruct e.
Qed.

Section QueryNeedsMatch.

Context {libc : Time}.

(** X19: an entry point asks the history only for a string that the
    classifier has turned down and that one of the two patterns of the
    resolver has gone past entirely: a string with characters left over
    by both patterns never reaches the history. *)
Theorem history_query_needs_full_match w obj timestr m :
  let first := strptime timestr "%X" (localtime_r (clock w)) in
  let second := strptime timestr "%x-%X" first.2 in
  (∀ w', slack_thread_post_to_timestamp (libc := libc) w obj timestr m
         = Done w' →
         List.filter is_query (trace w') ≠ List.filter is_query (trace w) →
         slack_is_slack_ts timestr = false ∧
         (first.1 = Some (String.length timestr)
          ∨ second.1 = Some (String.length timestr))) ∧
  (∀ w', slack_thread_get_replies (libc := libc) w obj timestr = Done w' →
         List.filter is_query (trace w') ≠ List.filter is_query (trace w) →
         slack_is_slack_ts timestr = false ∧
         (first.1 = Some (String.length timestr)
          ∨ second.1 = Some (String.length timestr))).
Proof.
  intros first second.
  assert (slack_get_ts_from_time_str (clock w) timestr ≠ 0 →
          first.1 = Some (String.length timestr)
          ∨ second.1 = Some (String.length timestr)) as Hmatch.
  { rewrite slack_get_ts_from_time_str_cases. fold first. fold second.
    repeat case_decide; auto. by intros []. }
  unfold slack_thread_post_to_timestamp, slack_thread_get_replies.
  split; intros w'; destruct (slack_is_slack_ts timestr).
  - intros (_ & _ & body & Ht & Hbody)%slack_thread_post_effects Hq.
    destruct Hq.
    by rewrite Ht, List.filter_app, (single_action_no_query _ Hbody),
      app_nil_r.
  - destruct (Z.eqb_spec (slack_get_ts_from_time_str (clock w) timestr) 0)
      as [_|Hne]; [|intros _ _; split; [done|by apply Hmatch]].
    intros [= <-] Hq. destruct Hq. simpl.
    by rewrite List.filter_app, app_nil_r.
  - intros [= <-] Hq. destruct Hq. simpl.
    by rewrite List.filter_app, app_nil_r.
  - destruct (Z.eqb_spec (slack_get_ts_from_time_str (clock w) timestr) 0)
      as [_|Hne]; [|intros _ _; split; [done|by apply Hmatch]].
    intros [= <-] Hq. destruct Hq. simpl.
    by rewrite List.filter_app, app_nil_r.
Qed.

End QueryNeedsMatch.

Lemma history_query_needs_full_match_witness :
  slack_thread_post_to_timestamp (libc := PosixC.posix_time) Examples.w0 1%nat
    "14:30:00" (Some "hello")
  = Done (emit (history_query
                  {| conv := 1%nat; op := ThreadOpPost; msg := Some "hello" |}
                  "C024BE91L" 1622557800)
            (emit (EvObjectRef 1%nat) Examples.w0)) ∧
  slack_is_slack_ts "14:30:00" = false ∧
  ((strptime (Time := PosixC.posix_time) "14:30:00" "%X"
      (localtime_r (clock Examples.w0))).1
   = Some (String.length "14:30:00")
   ∨ (strptime (Time := PosixC.posix_time) "14:30:00" "%x-%X"
        (strptime (Time := PosixC.posix_time) "14:30:00" "%X"
           (localtime_r (clock Examples.w0))).2).1
     = Some (String.length "14:30:00")).
Proof.
  assert (slack_thread_post_to_timestamp (libc := PosixC.posix_time)
            Examples.w0 1%nat "14:30:00" (Some "hello")
          = Done (emit (history_query
                          {| conv := 1%nat; op := ThreadOpPost;
                             msg := Some "hello" |}
                          "C024BE91L" 1622557800)
                    (emit (EvObjectRef 1%nat) Examples.w0))) as Hrun
    by reflexivity.
  split; [exact Hrun|].
  apply (proj1 (history_query_needs_full_match (libc := PosixC.posix_time)
                  Examples.w0 1%nat "14:30:00" (Some "hello")) _ Hrun).
  simpl. discriminate.
Defined.

(** ** The instant in the bounds of the window *)

Lemma pretty_N_char_value y :
  (y < 10)%N → Z.of_nat (nat_of_ascii (pretty_N_char y)) - 48 = Z.of_N y.
Proof.
  intros Hy.
  assert (y = 0 ∨ y = 1 ∨ y = 2 ∨ y = 3 ∨ y = 4 ∨ y = 5 ∨ y = 6 ∨ y = 7
          ∨ y = 8 ∨ y = 9)%N as Hcases by lia.
  repeat (destruct Hcases as [->|Hcases]; [reflexivity|]).
  by subst y.
Qed.

(** The digits that [%ld] puts in front of [s] write the number. *)
Lemma pretty_N_go_value x s :
  Wording.digits_value (pretty_N_go x s) 0 = Wording.digits_value s (Z.of_N x).
Proof.
  revert s. induction (N.lt_wf_0 x) as [x _ IH]; intros s.
  assert (x = 0 ∨ 0 < x)%N as [->|Hx] by lia.
  - by rewrite pretty_N_go_0.
  - rewrite pretty_N_go_step by done.
    rewrite IH by (by apply N.div_lt). simpl.
    rewrite pretty_N_char_value by (by apply N.mod_lt).
    f_equal. pose proof (N.div_mod x 10 ltac:(done)) as Hdm.
    set (q := (x `div` 10)%N) in *. set (r := (x `mod` 10)%N) in *.
    clearbody q r. lia.
Qed.

(** They do not begin with a zero. *)
Lemma pretty_N_go_leading x s :
  (0 < x)%N → Wording.leading_zero (pretty_N_go x s) = false.
Proof.
  revert s. induction (N.lt_wf_0 x) as [x _ IH]; intros s Hx.
  rewrite pretty_N_go_step by done.
  destruct (N.eq_0_gt_0_cases (x `div` 10)) as [Hz|Hp].
  - rewrite Hz, pretty_N_go_0. simpl.
    assert (x < 10)%N as Hlt by (by apply N.div_small_iff in Hz).
    rewrite N.mod_small by done.
    assert (x = 1 ∨ x = 2 ∨ x = 3 ∨ x = 4 ∨ x = 5 ∨ x = 6 ∨ x = 7 ∨ x = 8
            ∨ x = 9)%N as Hcases by lia.
    repeat (destruct Hcases as [->|Hcases]; [reflexivity|]).
    by subst x.
  - apply IH; [by apply N.div_lt|done].
Qed.

Lemma pretty_positive_plain p :
  Wording.plain_digits (pretty (Npos p)) ∧
  Wording.digits_value (pretty (Npos p)) 0 = Zpos p.
Proof.
  unfold pretty, pretty_N. case_decide; [done|].
  split; [split_and!|].
  - by apply pretty_N_go_digits.
  - rewrite pretty_N_go_step by lia. by apply pretty_N_go_nonempty.
  - by rewrite pretty_N_go_leading by lia.
  - by rewrite pretty_N_go_value.
Qed.

(** [%ld] writes the instant in decimal. *)
Lemma fmt_ld_decimal T : Wording.decimal_of (fmt_ld T) T.
Proof.
  unfold Wording.decimal_of, fmt_ld. destruct T as [|p|p]; simpl.
  - by split_and!.
  - apply pretty_positive_plain.
  - exists (pretty (Npos p)). split; [done|]. apply pretty_positive_plain.
Qed.

(** C7: for an instant [T] the dispatcher makes one call, the history
    query on the identifier of the conversation; its oldest bound is [T]
    written in decimal followed by [.000000], its latest bound the same
    digits followed by [.999999]; the conversations are left alone. *)
Theorem slack_thread_call_operation_window w obj o T c :
  objs w !! obj = Some c →
  ∃ w' d,
    slack_thread_call_operation w obj o T = Done w' ∧
    trace w' = trace w ++
      [EvApiGet slack_thread_cb_ptr (Some o) "conversations.history"
         [("channel", conversation_id c);
          ("oldest", d +:+ ".000000");
          ("latest", d +:+ ".999999")]] ∧
    Wording.decimal_of d T ∧
    objs w' = objs w.
Proof.
  intros Hc. exists (emit (history_query o (conversation_id c) T) w), (fmt_ld T).
  split; [by apply slack_thread_call_operation_live|].
  split; [done|]. split; [apply fmt_ld_decimal|done].
Qed.

Lemma slack_thread_call_operation_window_witness :
  objs Examples.w0 !! 1%nat = Some Examples.general ∧
  ∃ w' d,
    slack_thread_call_operation Examples.w0 1%nat Examples.post_hello
      1622557800 = Done w' ∧
    trace w' = trace Examples.w0 ++
      [EvApiGet slack_thread_cb_ptr (Some Examples.post_hello)
         "conversations.history"
         [("channel", conversation_id Examples.general);
          ("oldest", d +:+ ".000000");
          ("latest", d +:+ ".999999")]] ∧
    Wording.decimal_of d 1622557800 ∧
    objs w' = objs Examples.w0.
Proof.
  split; [reflexivity|].
  apply (slack_thread_call_operation_window Examples.w0 1%nat
           Examples.post_hello 1622557800 Examples.general).
  reflexivity.
Defined.

(** The query for that instant, and for the second before 1970, as they
    are made. *)
Example window_query_1622557800 :
  slack_thread_call_operation Examples.w0 1%nat Examples.post_hello 1622557800
  = Done (emit (EvApiGet slack_thread_cb_ptr (Some Examples.post_hello)
                  "conversations.history"
                  [("channel", "C024BE91L");
                   ("oldest", "1622557800.000000");
                   ("latest", "1622557800.999999")])
            Examples.w0).
Proof. reflexivity. Qed.

Example window_query_minus_1 :
  slack_thread_call_operation Examples.w0 1%nat Examples.post_hello (-1)
  = Done (emit (EvApiGet slack_thread_cb_ptr (Some Examples.post_hello)
                  "conversations.history"
                  [("channel", "C024BE91L");
                   ("oldest", "-1.000000");
                   ("latest", "-1.999999")])
            Examples.w0).
Proof. reflexivity. Qed.
